(** * E-commerce Insights Dashboard: the filter and aggregation pipeline

    A shallow embedding of [app.py].  The script is one top-to-bottom pass:
    generate (or fetch) the synthetic event log, read the two sidebar
    widgets, build the boolean mask, slice the frame, and derive the funnel,
    the unique-user metrics, the two conversion rates, the cart abandonment
    rate, the average order value and the monthly purchase trend.

    Conventions of the embedding:
    - a [DataFrame] is the list of its rows, in index order;
    - the [date] column holds midnight timestamps, kept at day resolution as
      (year, month, day) and compared in that order;
    - Python [int]s are [Z]; the results of [/], [sum] and [mean] are exact
      rationals [Q] (IEEE rounding of the quotient is not modelled);
    - a Python exception is the [Raise] branch of [result];
    - the global state of [np.random] is threaded explicitly. *)

From Stdlib Require Import ZArith QArith Qround Lqa Ascii.
From stdpp Require Import base list sorting strings gmap.

Close Scope Q_scope.
Local Open Scope Z_scope.

(** ** Exceptions *)

Inductive exn : Type :=
  | IndexError
  | ZeroDivisionError
  | ValueError.

Inductive result (A : Type) : Type :=
  | Ok (a : A)
  | Raise (e : exn).
Arguments Ok {A} a.
Arguments Raise {A} e.

Definition rbind {A B} (m : result A) (k : A → result B) : result B :=
  match m with
  | Ok a => k a
  | Raise e => Raise e
  end.

Notation "'try!' x ':=' m 'in' k" := (rbind m (fun x => k))
  (at level 10, x name, m at level 100, k at level 200).

(** ** Dates *)

Record Date : Type := mkDate { year : Z; month_of : Z; day : Z }.

Global Instance Date_eq_dec : EqDecision Date.
Proof. solve_decision. Defined.

(** [a <= b] on timestamps / [datetime.date]: year, then month, then day. *)
Definition date_leb (a b : Date) : bool :=
  if year a <? year b then true
  else if year b <? year a then false
  else if month_of a <? month_of b then true
  else if month_of b <? month_of a then false
  else day a <=? day b.

Definition date_ltb (a b : Date) : bool := negb (date_leb b a).

Definition date_le (a b : Date) : Prop := date_leb a b = true.
Definition date_lt (a b : Date) : Prop := date_ltb a b = true.

Global Instance date_le_dec : RelDecision date_le.
Proof. intros a b. unfold date_le. apply _. Defined.

(** ** Rows and frames *)

Record Row : Type := mkRow {
  event_id : Z;
  user_id : Z;
  date : Date;
  event : string;
  price : Q;
  month : string
}.

Abbreviation DataFrame := (list Row).

(** [df[mask]]: keep the rows whose mask entry is [True]. *)
Fixpoint boolean_index {A} (df : list A) (mask : list bool) : list A :=
  match df, mask with
  | r :: df', b :: mask' =>
      if b then r :: boolean_index df' mask' else boolean_index df' mask'
  | _, _ => []
  end.

(** [Series.isin(values)] on one cell. *)
Definition isin (s : string) (values : list string) : bool :=
  bool_decide (s ∈ values).

(** ** Sidebar and filter (lines 33-48) *)

(** [date_range[i]] on the tuple that [st.date_input] returned. *)
Definition getitem {A} (t : list A) (i : nat) : result A :=
  match t !! i with
  | Some x => Ok x
  | None => Raise IndexError
  end.

(** The sidebar check shows a message and lets the script go on. *)
Definition sidebar_errors (date_range : list Date) : list string :=
  if bool_decide (length date_range ≠ 2%nat)
  then ["Please select start and end date"%string]
  else [].

Definition mask (df : DataFrame) (events : list string)
    (date_range : list Date) : result (list bool) :=
  try! lo := getitem date_range 0 in
  try! hi := getitem date_range 1 in
  Ok (map (λ r, isin (event r) events && date_leb lo (date r)
                 && date_leb (date r) hi) df).

Definition view (df : DataFrame) (events : list string)
    (date_range : list Date) : result DataFrame :=
  try! m := mask df events date_range in
  Ok (boolean_index df m).

(** ** Group-by (lines 53, 95) *)

(** Python compares [str] values code point by code point, which is
    [String.le] on the strings of this embedding. *)

(** [df.groupby(key)] with the default [sort=True]: one group per key that
    occurs in the frame, keys ascending, rows of a group in frame order. *)
Definition groupby (key : Row → string) (df : DataFrame)
    : list (string * DataFrame) :=
  map (λ k, (k, filter (λ r, key r = k) df))
      (merge_sort String.le (remove_dups (map key df))).

Record FunnelRow : Type := mkFunnelRow { f_event : string; f_count : Z }.

Global Instance FunnelRow_eq_dec : EqDecision FunnelRow.
Proof. solve_decision. Defined.

(** [view.groupby('event', as_index=False).agg(count=('event','count'))] *)
Definition funnel (v : DataFrame) : list FunnelRow :=
  map (λ g, mkFunnelRow g.1 (Z.of_nat (length g.2))) (groupby event v).

Definition funnel_order : list string :=
  ["view"; "add_to_cart"; "purchase"]%string.

(** ** Unique users and conversion rates (lines 56-60) *)

(** [view[view['event'] == e]] *)
Definition where_event (v : DataFrame) (e : string) : DataFrame :=
  filter (λ r, event r = e) v.

(** [Series.nunique()] *)
Definition nunique (xs : list Z) : Z := Z.of_nat (length (remove_dups xs)).

Definition unique_views (v : DataFrame) : Z :=
  nunique (map user_id (where_event v "view")).
Definition unique_adds (v : DataFrame) : Z :=
  nunique (map user_id (where_event v "add_to_cart")).
Definition unique_purchases (v : DataFrame) : Z :=
  nunique (map user_id (where_event v "purchase")).

(** [a / b] on Python ints. *)
Definition truediv (a b : Z) : result Q :=
  if b =? 0 then Raise ZeroDivisionError
  else Ok (inject_Z a / inject_Z b)%Q.

(** Truth value of an int in [x if n else y]. *)
Definition truthy (n : Z) : bool := negb (n =? 0).

Definition conv_view_to_add (v : DataFrame) : result Q :=
  if truthy (unique_views v)
  then truediv (unique_adds v) (unique_views v)
  else Ok 0%Q.

Definition conv_add_to_purchase (v : DataFrame) : result Q :=
  if truthy (unique_adds v)
  then truediv (unique_purchases v) (unique_adds v)
  else Ok 0%Q.

(** ** Abandonment and average order value (lines 76-80) *)

Definition cart_abandonment_rate (v : DataFrame) : result Q :=
  try! c := conv_add_to_purchase v in
  Ok (1 - c)%Q.

(** A float that may be NaN. *)
Inductive number : Type :=
  | Num (q : Q)
  | NaN.

Definition sumQ (xs : list Q) : Q := foldr Qplus 0%Q xs.

(** [Series.mean()]: NaN on an empty series, no exception. *)
Definition mean (xs : list Q) : number :=
  match xs with
  | [] => NaN
  | _ => Num (sumQ xs / inject_Z (Z.of_nat (length xs)))%Q
  end.

Definition avg_order_value (v : DataFrame) : number :=
  if truthy (unique_purchases v)
  then mean (map price (where_event v "purchase"))
  else Num 0%Q.

(** ** Month keys (lines 25, 97) *)

Definition digit (n : Z) : ascii :=
  ascii_of_nat (48 + Z.to_nat (n mod 10)).

(** [date.dt.to_period('M').astype(str)]: the "YYYY-MM" key of a date. *)
Definition period_str (d : Date) : string :=
  String (digit (year d / 1000)) (String (digit (year d / 100))
  (String (digit (year d / 10)) (String (digit (year d))
  (String "-"%char (String (digit (month_of d / 10))
  (String (digit (month_of d)) EmptyString)))))).

Definition digit_val (c : ascii) : option Z :=
  let n := Z.of_nat (nat_of_ascii c) in
  if (48 <=? n) && (n <=? 57) then Some (n - 48) else None.

(** First and last month whose first day is a representable [Timestamp]
    ([Timestamp.min] is 1677-09-21, [Timestamp.max] is 2262-04-11). *)
Definition first_month : Date := mkDate 1677 10 1.
Definition last_month : Date := mkDate 2262 4 1.

(** [pd.to_datetime] on a month key.  Only the "YYYY-MM" shape, the one
    [period_str] writes, is modelled; a key that does not parse, or whose
    first day is out of the timestamp range, raises ([OutOfBoundsDatetime]
    is a [ValueError]). *)
Definition to_datetime (s : string) : result Date :=
  match s with
  | String a (String b (String c (String d (String "-"%char
      (String e (String f EmptyString)))))) =>
      match digit_val a, digit_val b, digit_val c, digit_val d,
            digit_val e, digit_val f with
      | Some a, Some b, Some c, Some d, Some e, Some f =>
          let t := mkDate (1000 * a + 100 * b + 10 * c + d) (10 * e + f) 1 in
          if (1 <=? month_of t) && (month_of t <=? 12)
             && date_leb first_month t && date_leb t last_month
          then Ok t
          else Raise ValueError
      | _, _, _, _, _, _ => Raise ValueError
      end
  | _ => Raise ValueError
  end.

(** ** Monthly purchase trend (lines 95-98) *)

Record MonthlyRow (K : Type) : Type := mkMonthlyRow {
  m_month : K;
  m_purchases : Z;
  m_revenue : Q
}.
Arguments mkMonthlyRow {K} _ _ _.
Arguments m_month {K} _.
Arguments m_purchases {K} _.
Arguments m_revenue {K} _.

(** [.groupby('month', as_index=False).agg(purchases=('event','count'),
    revenue=('price','sum'))] on the purchase rows. *)
Definition monthly_agg (v : DataFrame) : list (MonthlyRow string) :=
  map (λ g, mkMonthlyRow g.1 (Z.of_nat (length g.2)) (sumQ (map price g.2)))
      (groupby month (where_event v "purchase")).

(** [monthly['month'] = pd.to_datetime(monthly['month'])] *)
Fixpoint convert_months (rows : list (MonthlyRow string))
    : result (list (MonthlyRow Date)) :=
  match rows with
  | [] => Ok []
  | r :: rows' =>
      try! t := to_datetime (m_month r) in
      try! rest := convert_months rows' in
      Ok (mkMonthlyRow t (m_purchases r) (m_revenue r) :: rest)
  end.

Definition month_le (a b : MonthlyRow Date) : Prop :=
  date_le (m_month a) (m_month b).

Global Instance month_le_dec : RelDecision month_le.
Proof. intros a b. unfold month_le. apply _. Defined.

(** [monthly.sort_values('month')].  The keys of one frame are pairwise
    different whenever the sort is reached from [generate_data], so the
    order among equal keys (which pandas leaves to quicksort) plays no
    part. *)
Definition sort_values (rows : list (MonthlyRow Date))
    : list (MonthlyRow Date) :=
  merge_sort month_le rows.

Definition monthly (v : DataFrame) : result (list (MonthlyRow Date)) :=
  try! converted := convert_months (monthly_agg v) in
  Ok (sort_values converted).

(** ** The whole pass over one set of widget values *)

Record Dashboard : Type := mkDashboard {
  d_view : DataFrame;
  d_funnel : list FunnelRow;
  d_views : Z;
  d_adds : Z;
  d_purchases : Z;
  d_conv_view_to_add : Q;
  d_conv_add_to_purchase : Q;
  d_cart_abandonment_rate : Q;
  d_avg_order_value : number;
  d_monthly : list (MonthlyRow Date)
}.

Definition aggregate (v : DataFrame) : result Dashboard :=
  try! c1 := conv_view_to_add v in
  try! c2 := conv_add_to_purchase v in
  try! car := cart_abandonment_rate v in
  try! mo := monthly v in
  Ok (mkDashboard v (funnel v) (unique_views v) (unique_adds v)
        (unique_purchases v) c1 c2 car (avg_order_value v) mo).

(** The messages shown by [st.error], and the outcome of the run. *)
Definition run (df : DataFrame) (events : list string)
    (date_range : list Date) : list string * result Dashboard :=
  (sidebar_errors date_range,
   try! v := view df events date_range in aggregate v).

(** ** Synthetic data (lines 13-26) *)

Definition is_leap (y : Z) : bool :=
  (y mod 4 =? 0) && (negb (y mod 100 =? 0) || (y mod 400 =? 0)).

Definition days_in_month (y m : Z) : Z :=
  if m =? 2 then (if is_leap y then 29 else 28)
  else if (m =? 4) || (m =? 6) || (m =? 9) || (m =? 11) then 30
  else 31.

(** [pd.date_range('2024-01-01', '2024-12-31')], one entry per day. *)
Definition dates_2024 : list Date :=
  m ← seqZ 1 12; (λ d, mkDate 2024 m d) <$> seqZ 1 (days_in_month 2024 m).

(** [np.arange(n)] *)
Definition arange (n : Z) : list Z := seqZ 0 n.

(** Round half to even, the rule of [np.round]. *)
Definition rint (q : Q) : Z :=
  let f := Qfloor q in
  match (q - inject_Z f ?= 1 # 2)%Q with
  | Lt => f
  | Gt => f + 1
  | Eq => if Z.even f then f else f + 1
  end.

(** [np.round(x, 2)] *)
Definition round2 (q : Q) : Q := (inject_Z (rint (q * 100)) / 100)%Q.

(** [pd.DataFrame({...})] followed by line 25: the five columns must have
    one length; the [month] column is written from [date]. *)
Fixpoint make_frame (ids users : list Z) (ds : list Date)
    (es : list string) (ps : list Q) : result DataFrame :=
  match ids, users, ds, es, ps with
  | [], [], [], [], [] => Ok []
  | i :: ids', u :: users', d :: ds', e :: es', p :: ps' =>
      try! rest := make_frame ids' users' ds' es' ps' in
      Ok (mkRow i u d e p (period_str d) :: rest)
  | _, _, _, _, _ => Raise ValueError
  end.

Section Generator.
(** The legacy global generator of [np.random]: its state, and the draws
    the script makes, each returning the array drawn and the next state. *)
Variable rng : Type.
Variable seed : Z → rng.
Variable randint : Z → Z → Z → rng → list Z * rng.
Variable choice : ∀ A : Type, list A → option (list Q) → Z → rng → list A * rng.
Variable uniform : Q → Q → Z → rng → list Q * rng.

(** [generate_data(n, seed)], run when the global generator is in state
    [g]; returns the frame and the state it leaves behind.  A negative
    size is refused by the first draw. *)
Definition generate_data (n : Z) (s : Z) (g : rng)
    : result DataFrame * rng :=
  let g0 := seed s in
  if n <? 0 then (Raise ValueError, g0) else
  let '(users, g1) := randint 1 2000 n g0 in
  let dates := dates_2024 in
  let '(ds, g2) := choice Date dates None n g1 in
  let '(es, g3) :=
    choice string ["view"; "add_to_cart"; "purchase"]%string
      (Some [6 # 10; 25 # 100; 15 # 100]%Q) n g2 in
  let '(ps, g4) := uniform 5 300 n g3 in
  (make_frame (arange n) users ds es (round2 <$> ps), g4).


(** Every stored frame is the one the body returns for its key. *)
Definition coherent (store : gmap (Z * Z) (list Row)) : Prop :=
  ∀ n s D, store !! (n, s) = Some D → ∀ g, (generate_data n s g).1 = Ok D.

(** [df = generate_data()] *)
Definition df (g : rng) : result DataFrame * rng := generate_data 30000 42 g.
End Generator.

(** ** Widget defaults (lines 35-36) *)

(** [Series.unique()]: the distinct values, in order of first appearance. *)
Fixpoint unique_from (seen xs : list string) : list string :=
  match xs with
  | [] => []
  | x :: xs' =>
      if bool_decide (x ∈ seen) then unique_from seen xs'
      else x :: unique_from (x :: seen) xs'
  end.

Definition unique (xs : list string) : list string := unique_from [] xs.

(** [Series.min()] and [Series.max()] on the date column; [None] is [NaT],
    the answer on an empty column. *)
Definition date_min (ds : list Date) : option Date :=
  foldr (λ d acc, match acc with
                  | None => Some d
                  | Some m => Some (if date_leb d m then d else m)
                  end) None ds.

Definition date_max (ds : list Date) : option Date :=
  foldr (λ d acc, match acc with
                  | None => Some d
                  | Some m => Some (if date_leb m d then d else m)
                  end) None ds.

(** The [default=] of the multiselect. *)
Definition default_events (df : DataFrame) : list string :=
  unique (event <$> df).

(** * Vocabulary of the properties *)

(** The predicate of a filter criteria: event selected, date in the closed
    interval. *)
Definition keeps (events : list string) (lo hi : Date) (r : Row) : Prop :=
  event r ∈ events ∧ date_le lo (date r) ∧ date_le (date r) hi.

Global Instance keeps_dec events lo hi r : Decision (keeps events lo hi r).
Proof. unfold keeps. apply _. Defined.

(** The set of users that have an event of type [e] in the view. *)
Definition users_with (v : DataFrame) (e : string) : gset Z :=
  list_to_set (user_id <$> filter (λ r, event r = e) v).

(** The first day of the month of a date: what [pd.to_datetime] makes of
    the month key. *)
Definition month_start (d : Date) : Date := mkDate (year d) (month_of d) 1.

(** The month is a calendar month whose first day is a timestamp. *)
Definition month_in_range (d : Date) : Prop :=
  1 ≤ month_of d ≤ 12 ∧
  date_le first_month (month_start d) ∧ date_le (month_start d) last_month.

Global Instance month_in_range_dec d : Decision (month_in_range d).
Proof. unfold month_in_range. apply _. Defined.

(** What line 25 establishes for every row of the dataset. *)
Definition month_derived (r : Row) : Prop :=
  month r = period_str (date r) ∧ month_in_range (date r).

(** The timestamp of a key that parses. *)
Definition key_date (k : string) : Date :=
  match to_datetime k with
  | Ok t => t
  | Raise _ => first_month
  end.

Definition with_key_date (r : MonthlyRow string) : MonthlyRow Date :=
  mkMonthlyRow (key_date (m_month r)) (m_purchases r) (m_revenue r).

Definition sumZ (xs : list Z) : Z := foldr Z.add 0 xs.

(** ** Sample frames *)

(** The four-record scenario: two viewers, one of whom adds and buys. *)
Definition four_records : DataFrame :=
  [mkRow 0 1 (mkDate 2024 1 10) "view" 15%Q "2024-01";
   mkRow 1 1 (mkDate 2024 1 11) "add_to_cart" 15%Q "2024-01";
   mkRow 2 1 (mkDate 2024 1 12) "purchase" 100%Q "2024-01";
   mkRow 3 2 (mkDate 2024 2 3) "view" 40%Q "2024-02"].

(** One viewer, two other users who only added to cart. *)
Definition adders_without_views : DataFrame :=
  [mkRow 0 1 (mkDate 2024 1 5) "view" 10%Q "2024-01";
   mkRow 1 2 (mkDate 2024 1 6) "add_to_cart" 11%Q "2024-01";
   mkRow 2 3 (mkDate 2024 1 7) "add_to_cart" 12%Q "2024-01"].

(** A view and a purchase, nothing added to cart. *)
Definition no_add_to_cart : DataFrame :=
  [mkRow 0 1 (mkDate 2024 1 5) "view" 10%Q "2024-01";
   mkRow 1 1 (mkDate 2024 1 6) "purchase" 30%Q "2024-01"].

(** Purchases of February, January and February again, and one view. *)
Definition purchases_two_months : DataFrame :=
  [mkRow 0 4 (mkDate 2024 2 10) "purchase" 30%Q "2024-02";
   mkRow 1 5 (mkDate 2024 1 20) "purchase" 12.5%Q "2024-01";
   mkRow 2 4 (mkDate 2024 2 28) "purchase" 7.25%Q "2024-02";
   mkRow 3 6 (mkDate 2024 3 1) "view" 99%Q "2024-03"].

(** A counter in place of the Mersenne twister: enough to see that the
    assumptions on the draws can be met, and to run the generator. *)
Module CounterRng.
Definition rng : Type := Z.
Definition seed (s : Z) : rng := s.

Definition randint (lo hi n : Z) (g : rng) : list Z * rng :=
  ((λ i, lo + (g + i) mod (hi - lo)) <$> seqZ 0 n, g + n).

Definition choice (A : Type) (l : list A) (p : option (list Q)) (n : Z)
    (g : rng) : list A * rng :=
  match l with
  | [] => ([], g)
  | x :: _ =>
      ((λ i, nth (Z.to_nat ((g + i) mod Z.of_nat (length l))) l x) <$> seqZ 0 n,
       g + n)
  end.

Definition uniform (a b : Q) (n : Z) (g : rng) : list Q * rng :=
  ((λ i, a + (b - a) * (inject_Z ((g + i) mod 1000) / 1000))%Q <$> seqZ 0 n,
   g + n).

Definition generate (n s : Z) (g : rng) : result DataFrame * rng :=
  generate_data rng seed randint choice uniform n s g.
End CounterRng.

(** * Properties *)

(** ** The filter *)

Lemma boolean_index_map {A} (f : A → bool) (l : list A) :
  boolean_index l (map f l) = filter (λ x, f x = true) l.
Proof.
  induction l as [|x l IH]; [done|].
  cbn [map boolean_index]. rewrite filter_cons.
  destruct (f x) eqn:Hfx.
  - rewrite decide_True by done. by rewrite IH.
  - rewrite decide_False by done. exact IH.
Qed.

Lemma view_pair df events lo hi :
  view df events [lo; hi] = Ok (filter (keeps events lo hi) df).
Proof.
  unfold view, mask. cbn [getitem lookup list_lookup rbind].
  rewrite boolean_index_map. f_equal.
  apply list_filter_iff. intros r. unfold keeps, isin, date_le.
  rewrite !andb_true_iff, bool_decide_eq_true. tauto.
Qed.

Lemma view_short df events date_range :
  (length date_range < 2)%nat → view df events date_range = Raise IndexError.
Proof.
  intros Hlen. destruct date_range as [|lo [|hi rest]]; [done..|].
  cbn in Hlen. lia.
Qed.

Lemma view_long df events date_range :
  (2 ≤ length date_range)%nat → ∃ v, view df events date_range = Ok v.
Proof.
  intros Hlen. destruct date_range as [|lo [|hi rest]]; [cbn in Hlen; lia..|].
  eexists. unfold view, mask. cbn [getitem lookup list_lookup rbind]. done.
Qed.

(** ** Order on dates *)

Lemma date_leb_spec a b :
  date_leb a b = true ↔
  year a < year b ∨
  (year a = year b ∧ (month_of a < month_of b ∨
                      (month_of a = month_of b ∧ day a ≤ day b))).
Proof.
  unfold date_leb.
  repeat (case_match; try rewrite Z.ltb_lt in *; try rewrite Z.ltb_ge in * );
    rewrite ?Z.leb_le; split; intros; try done; lia.
Qed.

Global Instance date_le_refl : Reflexive date_le.
Proof. intros a. apply date_leb_spec. lia. Qed.

Global Instance date_le_trans : Transitive date_le.
Proof.
  intros a b c Hab%date_leb_spec Hbc%date_leb_spec. apply date_leb_spec. lia.
Qed.

Global Instance date_le_total : Total date_le.
Proof.
  intros a b. unfold date_le. rewrite !date_leb_spec. lia.
Qed.

Lemma date_le_antisym a b : date_le a b → date_le b a → a = b.
Proof.
  intros Hab%date_leb_spec Hba%date_leb_spec.
  destruct a, b; cbn in *. f_equal; lia.
Qed.

Lemma date_lt_spec a b : date_lt a b ↔ date_le a b ∧ a ≠ b.
Proof.
  unfold date_lt, date_ltb. rewrite negb_true_iff. split.
  - intros Hba. split.
    + destruct (date_le_total a b) as [H|H]; [done|]. unfold date_le in H. congruence.
    + intros ->. pose proof (date_le_refl b) as H. unfold date_le in H. congruence.
  - intros [Hab Hne]. destruct (date_leb b a) eqn:Hba; [|done].
    destruct Hne. by apply date_le_antisym.
Qed.

Lemma date_lt_not_le a b : date_lt a b → ¬ date_le b a.
Proof.
  unfold date_lt, date_ltb, date_le. rewrite negb_true_iff. congruence.
Qed.

(** C4: with a two-date selection the filter returns a view that is a
    subsequence of the dataset in the dataset's order, and every row of the
    view has its event in the selected set and its date in the closed
    interval from the first date to the second. *)
Theorem view_is_ordered_subsequence (D : DataFrame) (events : list string)
    (lo hi : Date) :
  ∃ v, view D events [lo; hi] = Ok v ∧
       v `sublist_of` D ∧
       Forall (λ r, event r ∈ events ∧ date_le lo (date r)
                    ∧ date_le (date r) hi) v.
Proof.
  exists (filter (keeps events lo hi) D). split; [apply view_pair|]. split.
  - apply sublist_filter.
  - apply Forall_forall. intros r Hr. by apply list_elem_of_filter in Hr as [Hk _].
Qed.

(** Nothing that satisfies the criteria is dropped. *)
Lemma view_complete (D : DataFrame) events lo hi r :
  r ∈ D → keeps events lo hi r →
  ∃ v, view D events [lo; hi] = Ok v ∧ r ∈ v.
Proof.
  intros Hr Hk. eexists. split; [apply view_pair|].
  apply list_elem_of_filter. done.
Qed.

(** C10: [st.date_input] hands back at most two dates.  The filter returns
    a view only when it hands back exactly two; with fewer, building the mask
    raises [IndexError] (no empty view is produced), and the sidebar check
    before it has only shown its message. *)
Theorem filter_needs_two_dates (D : DataFrame) (events : list string)
    (date_range : list Date) :
  (length date_range ≤ 2)%nat →
  ((∃ v, view D events date_range = Ok v) ↔ length date_range = 2%nat) ∧
  (length date_range ≠ 2%nat →
     mask D events date_range = Raise IndexError ∧
     run D events date_range =
       (["Please select start and end date"%string], Raise IndexError)).
Proof.
  intros Hle. split.
  - split.
    + intros [v Hv]. destruct (decide (length date_range < 2)%nat) as [Hlt|]; [|lia].
      rewrite view_short in Hv by done. discriminate.
    + intros Heq. apply view_long. lia.
  - intros Hne. assert (length date_range < 2)%nat as Hlt by lia.
    pose proof (view_short D events date_range Hlt) as Hv.
    split.
    + destruct date_range as [|lo [|hi rest]]; [done..|]. cbn in Hlt. lia.
    + unfold run, sidebar_errors. rewrite Hv.
      by rewrite bool_decide_eq_true_2.
Qed.

Lemma filter_needs_two_dates_witness :
  (length [mkDate 2024 3 1] ≤ 2)%nat ∧
  ((∃ v, view [] ["view"%string] [mkDate 2024 3 1] = Ok v)
     ↔ length [mkDate 2024 3 1] = 2%nat) ∧
  (length [mkDate 2024 3 1] ≠ 2%nat →
     mask [] ["view"%string] [mkDate 2024 3 1] = Raise IndexError ∧
     run [] ["view"%string] [mkDate 2024 3 1] =
       (["Please select start and end date"%string], Raise IndexError)).
Proof.
  split; [cbn; lia|].
  apply (filter_needs_two_dates [] ["view"%string] [mkDate 2024 3 1]).
  cbn; lia.
Defined.

(** ** Empty selections *)

Lemma view_empty_selection D events lo hi :
  events = [] ∨ date_lt hi lo → view D events [lo; hi] = Ok [].
Proof.
  intros Hsel. rewrite view_pair. f_equal.
  induction D as [|r D IH]; [done|].
  rewrite filter_cons, decide_False; [exact IH|].
  intros (Hev & Hlo & Hhi). destruct Hsel as [-> | Hlt].
  - by apply elem_of_nil in Hev.
  - apply (date_lt_not_le _ _ Hlt). by etrans.
Qed.

(** C2 (as the code has it): with an empty event selection, or a date range
    whose start is after its end, the run raises nothing, the view is empty,
    the funnel and the monthly series are empty, the three unique-user
    counts, both conversion rates and the average order value are 0, and the
    cart abandonment rate is 1. *)
Theorem empty_selection_dashboard (D : DataFrame) (events : list string)
    (lo hi : Date) :
  events = [] ∨ date_lt hi lo →
  run D events [lo; hi] =
    ([], Ok (mkDashboard [] [] 0 0 0 0%Q 0%Q 1%Q (Num 0%Q) [])).
Proof.
  intros Hsel. unfold run. rewrite (view_empty_selection D events lo hi Hsel).
  reflexivity.
Qed.

Lemma empty_selection_dashboard_witness :
  ([] = @nil string ∨ date_lt (mkDate 2024 12 31) (mkDate 2024 1 1)) ∧
  run [mkRow 0 7 (mkDate 2024 5 9) "purchase" 20%Q "2024-05"] []
      [mkDate 2024 1 1; mkDate 2024 12 31] =
    ([], Ok (mkDashboard [] [] 0 0 0 0%Q 0%Q 1%Q (Num 0%Q) [])).
Proof.
  split; [by left|].
  apply (empty_selection_dashboard _ [] (mkDate 2024 1 1) (mkDate 2024 12 31)).
  by left.
Defined.

(** C2 fails as stated: on the empty view the cart abandonment rate is 1,
    not 0. *)
Lemma empty_selection_abandonment_not_zero :
  ∃ d, (run [mkRow 0 7 (mkDate 2024 5 9) "purchase" 20%Q "2024-05"] []
            [mkDate 2024 1 1; mkDate 2024 12 31]).2 = Ok d ∧
       d_view d = [] ∧
       d_cart_abandonment_rate d = 1%Q ∧
       ¬ (d_cart_abandonment_rate d == 0)%Q.
Proof.
  eexists. split; [reflexivity|]. cbn. repeat split. intros H. discriminate H.
Qed.

(** ** Unique users and ratios *)

Lemma elem_of_users_with v e u :
  u ∈ users_with v e ↔ ∃ r, r ∈ v ∧ event r = e ∧ user_id r = u.
Proof.
  unfold users_with. rewrite elem_of_list_to_set, list_elem_of_fmap.
  split.
  - intros (r & -> & [He Hr]%list_elem_of_filter). by exists r.
  - intros (r & Hr & He & <-). exists r. split; [done|].
    by apply list_elem_of_filter.
Qed.

Lemma nunique_card (xs : list Z) :
  nunique xs = Z.of_nat (size (list_to_set (C:=gset Z) xs)).
Proof.
  unfold nunique. f_equal.
  rewrite <- (size_list_to_set (C:=gset Z) (remove_dups xs))
    by apply NoDup_remove_dups.
  f_equal. apply set_eq. intros x.
  by rewrite !elem_of_list_to_set, elem_of_remove_dups.
Qed.

Lemma nunique_nonneg xs : 0 ≤ nunique xs.
Proof. unfold nunique. lia. Qed.

Lemma nunique_zero xs : nunique xs = 0 ↔ xs = [].
Proof.
  unfold nunique. split; [|by intros ->].
  intros Hz. destruct xs as [|x xs]; [done|].
  assert (x ∈ remove_dups (x :: xs)) as Hx
    by (apply elem_of_remove_dups; left).
  destruct (remove_dups (x :: xs)); [by apply elem_of_nil in Hx|]. cbn in Hz. lia.
Qed.

Lemma truthy_false n : truthy n = false ↔ n = 0.
Proof. unfold truthy. rewrite negb_false_iff. apply Z.eqb_eq. Qed.

Lemma truthy_true n : truthy n = true ↔ n ≠ 0.
Proof. unfold truthy. rewrite negb_true_iff. apply Z.eqb_neq. Qed.

(** The guarded quotient of lines 59 and 60 never raises. *)
Lemma guarded_truediv (a b : Z) :
  (if truthy b then truediv a b else Ok 0%Q) =
  Ok (if decide (b = 0) then 0%Q else (inject_Z a / inject_Z b)%Q).
Proof.
  unfold truediv. destruct (decide (b = 0)) as [->|Hb]; [done|].
  rewrite (proj2 (truthy_true b) Hb). by rewrite (proj2 (Z.eqb_neq b 0) Hb).
Qed.

Lemma Qdiv_Z_nonneg (a b : Z) : 0 ≤ a → 0 < b → (0 <= inject_Z a / inject_Z b)%Q.
Proof.
  intros Ha Hb. destruct b as [|b|b]; [lia| |lia].
  unfold Qle, Qdiv, Qmult, Qinv, inject_Z. cbn. lia.
Qed.

Lemma Qdiv_Z_le_1 (a b : Z) :
  0 < b → (inject_Z a / inject_Z b <= 1)%Q ↔ a ≤ b.
Proof.
  intros Hb. destruct b as [|b|b]; [lia| |lia].
  unfold Qle, Qdiv, Qmult, Qinv, inject_Z. cbn. lia.
Qed.

(** C5: each unique-user metric is the number of distinct user ids among
    the rows of the view with that event; the view->add rate is
    [unique_adds / unique_views], or 0 when there is no viewer; the
    add->purchase rate is [unique_purchases / unique_adds], or 0 when nobody
    added; neither quotient raises. *)
Theorem unique_counts_and_conversion_rates (v : DataFrame) :
  unique_views v = Z.of_nat (size (users_with v "view")) ∧
  unique_adds v = Z.of_nat (size (users_with v "add_to_cart")) ∧
  unique_purchases v = Z.of_nat (size (users_with v "purchase")) ∧
  conv_view_to_add v =
    Ok (if decide (unique_views v = 0) then 0%Q
        else (inject_Z (unique_adds v) / inject_Z (unique_views v))%Q) ∧
  conv_add_to_purchase v =
    Ok (if decide (unique_adds v = 0) then 0%Q
        else (inject_Z (unique_purchases v) / inject_Z (unique_adds v))%Q).
Proof.
  unfold unique_views, unique_adds, unique_purchases, users_with, where_event.
  repeat split; try apply nunique_card; apply guarded_truediv.
Qed.

(** Unique users are not raw events: two views by one user count once. *)
Example unique_views_counts_users :
  let v := [mkRow 0 7 (mkDate 2024 1 2) "view" 10%Q "2024-01";
            mkRow 1 7 (mkDate 2024 1 3) "view" 12%Q "2024-01"] in
  unique_views v = 1 ∧ funnel v = [mkFunnelRow "view" 2].
Proof. split; reflexivity. Qed.

(** C3 (as the code has it): with at least one distinct viewer the
    view->add rate is never negative, and it is at most 1 exactly when the
    view has no more distinct adders than distinct viewers; with no viewer it
    is 0. *)
Theorem conv_view_to_add_range (v : DataFrame) :
  (0 < unique_views v →
     ∃ q, conv_view_to_add v = Ok q ∧ (0 <= q)%Q ∧
          ((q <= 1)%Q ↔ unique_adds v ≤ unique_views v)) ∧
  (unique_views v = 0 → conv_view_to_add v = Ok 0%Q).
Proof.
  unfold conv_view_to_add. rewrite guarded_truediv. split.
  - intros Hpos. eexists. split.
    + rewrite decide_False by lia. reflexivity.
    + split.
      * apply Qdiv_Z_nonneg; [apply nunique_nonneg | done].
      * by apply Qdiv_Z_le_1.
  - intros Hz. by rewrite decide_True.
Qed.

Lemma conv_view_to_add_range_witness :
  0 < unique_views adders_without_views ∧
  ∃ q, conv_view_to_add adders_without_views = Ok q ∧ (0 <= q)%Q ∧
       ((q <= 1)%Q ↔
        unique_adds adders_without_views ≤ unique_views adders_without_views).
Proof.
  assert (0 < unique_views adders_without_views) as Hpos by (vm_compute; done).
  split; [exact Hpos|].
  exact (proj1 (conv_view_to_add_range adders_without_views) Hpos).
Defined.

(** C3 fails as stated: this view, which the full selection returns
    unchanged, has a viewer and a view->add rate of 2. *)
Lemma conv_view_to_add_exceeds_one :
  view adders_without_views ["view"; "add_to_cart"; "purchase"]%string
       [mkDate 2024 1 1; mkDate 2024 12 31] = Ok adders_without_views ∧
  0 < unique_views adders_without_views ∧
  conv_view_to_add adders_without_views = Ok 2%Q ∧
  ¬ (0 <= 2 <= 1)%Q.
Proof.
  split; [reflexivity|]. split; [by vm_compute|]. split; [reflexivity|].
  intros [_ H]. by vm_compute in H.
Qed.

(** ** Abandonment and average order value *)

(** C6: the cart abandonment rate is 1 minus the add->purchase rate of the
    same view; both are always produced. *)
Theorem cart_abandonment_is_complement (v : DataFrame) :
  ∃ c, conv_add_to_purchase v = Ok c ∧
       cart_abandonment_rate v = Ok (1 - c)%Q.
Proof.
  unfold cart_abandonment_rate, conv_add_to_purchase.
  rewrite guarded_truediv. eexists. split; reflexivity.
Qed.

(** C7: the average order value is the sum of the prices of the purchase
    rows of the view divided by their number, and it is 0 (never NaN, never
    an exception) when the view has no purchase row. *)
Theorem avg_order_value_is_mean (v : DataFrame) :
  let prices := price <$> filter (λ r, event r = "purchase"%string) v in
  avg_order_value v =
    match prices with
    | [] => Num 0%Q
    | _ => Num (sumQ prices / inject_Z (Z.of_nat (length prices)))%Q
    end.
Proof.
  cbv zeta. unfold avg_order_value, unique_purchases.
  fold (where_event v "purchase").
  destruct (where_event v "purchase") as [|r rs] eqn:Hw.
  - reflexivity.
  - rewrite (proj2 (truthy_true _)); [reflexivity|].
    rewrite nunique_zero. discriminate.
Qed.

(** ** Group-by *)

Lemma StronglySorted_distinct {A} (R R' : relation A) (l : list A) :
  (∀ x y, R x y → x ≠ y → R' x y) →
  StronglySorted R l → NoDup l → StronglySorted R' l.
Proof.
  intros HR. induction 1 as [|x l Hl IH Hx]; intros Hnd; [constructor|].
  apply NoDup_cons in Hnd as [Hnotin Hnd]. constructor; [by apply IH|].
  apply Forall_forall. intros y Hy. apply HR.
  - by eapply Forall_forall in Hx.
  - by intros ->.
Qed.

Lemma StronglySorted_strict {A} (R : relation A) `{!AntiSymm (=) R} (l : list A) :
  StronglySorted R l → NoDup l → StronglySorted (strict R) l.
Proof.
  apply StronglySorted_distinct. intros x y Hxy Hne. split; [done|].
  intros Hyx. by apply Hne, (anti_symm R).
Qed.

Lemma group_keys_sorted (keys : list string) :
  StronglySorted (strict String.le) (merge_sort String.le (remove_dups keys)).
Proof.
  apply StronglySorted_strict; [apply _| |].
  - apply StronglySorted_merge_sort; apply _.
  - rewrite merge_sort_Permutation. apply NoDup_remove_dups.
Qed.

Lemma elem_of_group_keys (keys : list string) k :
  k ∈ merge_sort String.le (remove_dups keys) ↔ k ∈ keys.
Proof. by rewrite merge_sort_Permutation, elem_of_remove_dups. Qed.

Lemma groupby_keys key (D : DataFrame) :
  (groupby key D).*1 = merge_sort String.le (remove_dups (map key D)).
Proof.
  unfold groupby. rewrite <- list_fmap_compose.
  apply list_fmap_id.
Qed.

Lemma elem_of_groupby key (D : DataFrame) k g :
  (k, g) ∈ groupby key D ↔ k ∈ map key D ∧ g = filter (λ r, key r = k) D.
Proof.
  unfold groupby. rewrite list_elem_of_fmap. split.
  - intros (k' & [= -> ->] & Hk). split; [|done].
    exact (proj1 (elem_of_group_keys _ _) Hk).
  - intros [Hk ->]. exists k. split; [done|].
    exact (proj2 (elem_of_group_keys _ _) Hk).
Qed.

Lemma group_nonempty (key : Row → string) (D : DataFrame) k :
  k ∈ map key D → filter (λ r, key r = k) D ≠ [].
Proof.
  intros (r & -> & Hr)%list_elem_of_fmap Hnil.
  assert (r ∈ filter (λ r', key r' = key r) D) as Hin
    by by apply list_elem_of_filter.
  rewrite Hnil in Hin. by apply elem_of_nil in Hin.
Qed.

(** ** The funnel *)

(** C1 (as the code has it): the funnel table has a row for an event type
    exactly when the view has a row with that event, the row's count is the
    number of rows of the view with that event, so no row has a zero count,
    and the table is in strictly ascending order of the event name. *)
Theorem funnel_counts_present_events (v : DataFrame) :
  (∀ e c, mkFunnelRow e c ∈ funnel v ↔
          e ∈ event <$> v ∧
          c = Z.of_nat (length (filter (λ r, event r = e) v))) ∧
  (∀ row, row ∈ funnel v → 0 < f_count row) ∧
  StronglySorted (strict String.le) (f_event <$> funnel v).
Proof.
  assert (∀ e c, mkFunnelRow e c ∈ funnel v ↔
                 e ∈ event <$> v ∧
                 c = Z.of_nat (length (filter (λ r, event r = e) v))) as Hrows.
  { intros e c. unfold funnel. split.
    - intros Hrow.
      destruct (proj1 (list_elem_of_fmap _ _ _) Hrow) as ([k g] & Heq & Hin).
      cbn in Heq.
      destruct (proj1 (elem_of_groupby _ _ _ _) Hin) as [Hk ->].
      by injection Heq as -> ->.
    - intros [He ->]. apply list_elem_of_fmap.
      exists (e, filter (λ r, event r = e) v).
      split; [done|]. by apply (proj2 (elem_of_groupby _ _ _ _)). }
  split; [exact Hrows|]. split.
  - intros [e c] Hrow. destruct (proj1 (Hrows e c) Hrow) as [He ->]. cbn.
    pose proof (group_nonempty event v e He) as Hne.
    destruct (filter _ v); [done|]. cbn. lia.
  - unfold funnel. rewrite <- list_fmap_compose.
    change (f_event ∘ _) with (@fst string (list Row)).
    rewrite groupby_keys. apply group_keys_sorted.
Qed.

(** C1 fails as stated: the table of this view has two rows, purchase
    before view, and no row for add_to_cart. *)
Lemma funnel_omits_absent_events :
  funnel no_add_to_cart = [mkFunnelRow "purchase" 1; mkFunnelRow "view" 1] ∧
  f_event <$> funnel no_add_to_cart ≠ funnel_order ∧
  mkFunnelRow "add_to_cart" 0 ∉ funnel no_add_to_cart.
Proof.
  split; [reflexivity|]. split; [discriminate|].
  apply (bool_decide_eq_false_1 _). reflexivity.
Qed.

(** ** Month keys *)

Lemma digit_val_digit (n : Z) : digit_val (digit n) = Some (n mod 10).
Proof.
  unfold digit. pose proof (Z.mod_pos_bound n 10 eq_refl) as Hk.
  generalize dependent (n mod 10). intros k Hk.
  assert (k = 0 ∨ k = 1 ∨ k = 2 ∨ k = 3 ∨ k = 4 ∨ k = 5 ∨ k = 6 ∨ k = 7
          ∨ k = 8 ∨ k = 9) as Hcases by lia.
  repeat destruct Hcases as [-> | Hcases]; try reflexivity.
  by rewrite Hcases.
Qed.

Lemma decimal_4 (y : Z) :
  0 ≤ y ≤ 9999 →
  1000 * ((y / 1000) mod 10) + 100 * ((y / 100) mod 10)
    + 10 * ((y / 10) mod 10) + y mod 10 = y.
Proof. intros Hy. Z.div_mod_to_equations. lia. Qed.

Lemma decimal_2 (m : Z) :
  0 ≤ m ≤ 99 → 10 * ((m / 10) mod 10) + m mod 10 = m.
Proof. intros Hm. Z.div_mod_to_equations. lia. Qed.

Lemma month_in_range_year (d : Date) : month_in_range d → 1677 ≤ year d ≤ 2262.
Proof.
  intros (_ & Hlo%date_leb_spec & Hhi%date_leb_spec). cbn in *. lia.
Qed.

Lemma to_datetime_period_str (d : Date) :
  month_in_range d → to_datetime (period_str d) = Ok (month_start d).
Proof.
  intros Hr. pose proof (month_in_range_year d Hr) as Hy.
  destruct Hr as (Hm & Hlo & Hhi).
  unfold to_datetime, period_str. rewrite !digit_val_digit.
  rewrite decimal_4, decimal_2 by lia. fold (month_start d).
  cbn [month_of month_start].
  rewrite (proj2 (Z.leb_le _ _) (proj1 Hm)), (proj2 (Z.leb_le _ _) (proj2 Hm)).
  unfold date_le in Hlo, Hhi. by rewrite Hlo, Hhi.
Qed.

Lemma period_str_month_start (d : Date) :
  period_str (month_start d) = period_str d.
Proof. reflexivity. Qed.

(** In range, two dates have the same key exactly when they fall in the
    same calendar month. *)
Lemma period_str_eq_iff (d1 d2 : Date) :
  month_in_range d1 → month_in_range d2 →
  period_str d1 = period_str d2 ↔ month_start d1 = month_start d2.
Proof.
  intros H1 H2. split.
  - intros Heq. apply (f_equal to_datetime) in Heq.
    rewrite !to_datetime_period_str in Heq by done. congruence.
  - intros Heq. by rewrite <- (period_str_month_start d1), Heq.
Qed.

Example period_str_march : period_str (mkDate 2024 3 17) = "2024-03"%string.
Proof. reflexivity. Qed.

Example to_datetime_march :
  to_datetime "2024-03" = Ok (mkDate 2024 3 1).
Proof. reflexivity. Qed.

Example to_datetime_out_of_bounds :
  to_datetime (period_str (mkDate 1677 9 25)) = Raise ValueError.
Proof. reflexivity. Qed.

(** ** The monthly trend *)

Lemma convert_months_ok (rows : list (MonthlyRow string)) :
  Forall (λ r, ∃ t, to_datetime (m_month r) = Ok t) rows →
  convert_months rows = Ok (with_key_date <$> rows).
Proof.
  induction 1 as [|r rows [t Ht] _ IH]; [done|].
  cbn [convert_months]. rewrite Ht, IH. cbn [rbind fmap list_fmap].
  unfold with_key_date at 2, key_date. by rewrite Ht.
Qed.

Lemma filter_ext_Forall {A} (P Q : A → Prop)
    `{!∀ x, Decision (P x), !∀ x, Decision (Q x)} (l : list A) :
  Forall (λ x, P x ↔ Q x) l → filter P l = filter Q l.
Proof.
  induction 1 as [|x l Hx _ IH]; [done|].
  rewrite !filter_cons, IH. destruct (decide (P x)) as [HP|HP].
  - by rewrite decide_True by by apply Hx.
  - by rewrite decide_False by (by rewrite <- Hx).
Qed.

Section Monthly.
Variable v : DataFrame.
Hypothesis Hv : Forall month_derived v.

Let purchases := where_event v "purchase".

Lemma purchase_key_inv k :
  k ∈ map month purchases →
  ∃ r, r ∈ v ∧ event r = "purchase"%string ∧ k = period_str (date r)
       ∧ month_in_range (date r).
Proof.
  intros Hk. destruct (proj1 (list_elem_of_fmap _ _ _) Hk) as (r & -> & Hr).
  apply list_elem_of_filter in Hr as [He Hr].
  pose proof (proj1 (Forall_forall _ _) Hv r Hr) as [Hm Hrange].
  by exists r.
Qed.

Lemma purchase_key_intro r :
  r ∈ v → event r = "purchase"%string → month r ∈ map month purchases.
Proof.
  intros Hr He. apply list_elem_of_fmap. exists r. split; [done|].
  by apply list_elem_of_filter.
Qed.

Lemma key_date_purchase r :
  r ∈ v → key_date (month r) = month_start (date r).
Proof.
  intros Hr. pose proof (proj1 (Forall_forall _ _) Hv r Hr) as [Hm Hrange].
  unfold key_date. by rewrite Hm, to_datetime_period_str.
Qed.

(** The group of a key is the set of purchases of one calendar month. *)
Lemma purchase_group r :
  r ∈ v →
  filter (λ r', month r' = month r) purchases =
  filter (λ r', event r' = "purchase"%string
                ∧ month_start (date r') = month_start (date r)) v.
Proof.
  intros Hr. unfold purchases, where_event. rewrite list_filter_filter.
  pose proof (proj1 (Forall_forall _ _) Hv r Hr) as [Hm Hrange].
  apply filter_ext_Forall. eapply Forall_impl; [exact Hv|].
  intros r' [Hm' Hrange']. rewrite Hm, Hm'.
  rewrite (period_str_eq_iff _ _ Hrange' Hrange). tauto.
Qed.

Lemma monthly_ok :
  monthly v = Ok (sort_values (with_key_date <$> monthly_agg v)).
Proof.
  unfold monthly. rewrite convert_months_ok; [done|].
  apply Forall_forall. intros row Hrow. unfold monthly_agg in Hrow.
  destruct (proj1 (list_elem_of_fmap _ _ _) Hrow) as ([k g] & -> & Hin).
  destruct (proj1 (elem_of_groupby _ _ _ _) Hin) as [Hk _].
  destruct (purchase_key_inv k Hk) as (r & _ & _ & -> & Hrange).
  exists (month_start (date r)). by apply to_datetime_period_str.
Qed.

Lemma monthly_agg_keys :
  m_month <$> (with_key_date <$> monthly_agg v) =
  key_date <$> merge_sort String.le (remove_dups (map month purchases)).
Proof.
  unfold monthly_agg. rewrite <- !list_fmap_compose.
  rewrite <- (groupby_keys month purchases).
  by rewrite <- list_fmap_compose.
Qed.

Lemma monthly_keys_NoDup :
  NoDup (m_month <$> (with_key_date <$> monthly_agg v)).
Proof.
  rewrite monthly_agg_keys. apply NoDup_fmap_2_strong.
  - intros k1 k2 Hk1 Hk2 Heq.
    apply (proj1 (elem_of_group_keys _ _)) in Hk1, Hk2.
    destruct (purchase_key_inv k1 Hk1) as (r1 & _ & _ & -> & Hr1).
    destruct (purchase_key_inv k2 Hk2) as (r2 & _ & _ & -> & Hr2).
    unfold key_date in Heq. rewrite !to_datetime_period_str in Heq by done.
    by apply period_str_eq_iff.
  - rewrite merge_sort_Permutation. apply NoDup_remove_dups.
Qed.

Lemma elem_of_monthly_agg row :
  row ∈ with_key_date <$> monthly_agg v ↔
  ∃ r, r ∈ v ∧ event r = "purchase"%string ∧
    let g := filter (λ r', event r' = "purchase"%string
               ∧ month_start (date r') = month_start (date r)) v in
    row = mkMonthlyRow (month_start (date r)) (Z.of_nat (length g))
            (sumQ (price <$> g)).
Proof.
  cbv zeta. unfold monthly_agg. rewrite <- list_fmap_compose. split.
  - intros Hrow.
    destruct (proj1 (list_elem_of_fmap _ _ _) Hrow) as ([k g] & -> & Hin).
    destruct (proj1 (elem_of_groupby _ _ _ _) Hin) as [Hk ->].
    destruct (proj1 (list_elem_of_fmap _ _ _) Hk) as (r & -> & Hr).
    apply list_elem_of_filter in Hr as [He Hr].
    exists r. split; [done|]. split; [done|].
    unfold compose, with_key_date. cbn.
    by rewrite key_date_purchase, purchase_group.
  - intros (r & Hr & He & ->). apply list_elem_of_fmap.
    exists (month r, filter (λ r', month r' = month r) purchases). split.
    + unfold compose, with_key_date. cbn.
      by rewrite key_date_purchase, purchase_group.
    + apply (proj2 (elem_of_groupby _ _ _ _)). split; [|done].
      by apply purchase_key_intro.
Qed.
End Monthly.

Global Instance month_le_trans : Transitive month_le.
Proof. intros a b c. unfold month_le. apply date_le_trans. Qed.

Global Instance month_le_total : Total month_le.
Proof. intros a b. unfold month_le. apply date_le_total. Qed.

(** C8: on a view whose rows carry the month key of their date, the monthly
    series is produced without error; it has one entry for each calendar
    month in which the view has a purchase, holding the number of purchase
    rows of that month and the sum of their prices; and its months are in
    strictly ascending calendar order, so no month occurs twice. *)
Theorem monthly_trend_grouped_and_sorted (v : DataFrame) :
  Forall month_derived v →
  ∃ s, monthly v = Ok s ∧
    (∀ row, row ∈ s ↔
       ∃ r, r ∈ v ∧ event r = "purchase"%string ∧
         let g := filter (λ r', event r' = "purchase"%string
                    ∧ month_start (date r') = month_start (date r)) v in
         row = mkMonthlyRow (month_start (date r)) (Z.of_nat (length g))
                 (sumQ (price <$> g))) ∧
    StronglySorted date_lt (m_month <$> s) ∧
    NoDup (m_month <$> s).
Proof.
  intros Hv. eexists. split; [by apply monthly_ok|].
  unfold sort_values.
  assert (NoDup (m_month <$> merge_sort month_le (with_key_date <$> monthly_agg v)))
    as Hnd.
  { rewrite merge_sort_Permutation. by apply monthly_keys_NoDup. }
  split; [|split; [|exact Hnd]].
  - intros row. rewrite merge_sort_Permutation. by apply elem_of_monthly_agg.
  - apply (StronglySorted_distinct date_le); [|
      |exact Hnd].
    + intros a b Hab Hne. by apply date_lt_spec.
    + apply (StronglySorted_fmap _ month_le); [done|].
      apply StronglySorted_merge_sort; apply _.
Qed.

Lemma purchases_two_months_derived : Forall month_derived purchases_two_months.
Proof.
  repeat constructor; cbn; lia.
Qed.

Example monthly_two_months :
  monthly purchases_two_months =
  Ok [mkMonthlyRow (mkDate 2024 1 1) 1 (sumQ [12.5%Q]);
      mkMonthlyRow (mkDate 2024 2 1) 2 (sumQ [30%Q; 7.25%Q])].
Proof. reflexivity. Qed.

Lemma monthly_trend_grouped_and_sorted_witness :
  Forall month_derived purchases_two_months ∧
  ∃ s, monthly purchases_two_months = Ok s ∧
    (∀ row, row ∈ s ↔
       ∃ r, r ∈ purchases_two_months ∧ event r = "purchase"%string ∧
         let g := filter (λ r', event r' = "purchase"%string
                    ∧ month_start (date r') = month_start (date r))
                    purchases_two_months in
         row = mkMonthlyRow (month_start (date r)) (Z.of_nat (length g))
                 (sumQ (price <$> g))) ∧
    StronglySorted date_lt (m_month <$> s) ∧
    NoDup (m_month <$> s).
Proof.
  split; [exact purchases_two_months_derived|].
  exact (monthly_trend_grouped_and_sorted purchases_two_months
           purchases_two_months_derived).
Defined.

(** ** The generator *)

Lemma dates_2024_length : length dates_2024 = 366%nat.
Proof. reflexivity. Qed.

Lemma dates_2024_in_range : Forall month_in_range dates_2024.
Proof. apply (bool_decide_unpack _). vm_compute. exact I. Qed.


Lemma make_frame_ok (ids users : list Z) (ds : list Date) (es : list string)
    (ps : list Q) :
  length users = length ids → length ds = length ids →
  length es = length ids → length ps = length ids →
  ∃ D, make_frame ids users ds es ps = Ok D ∧
       event_id <$> D = ids ∧ user_id <$> D = users ∧ date <$> D = ds ∧
       event <$> D = es ∧ price <$> D = ps ∧
       Forall (λ r, month r = period_str (date r)) D.
Proof.
  revert users ds es ps.
  induction ids as [|i ids IH]; intros [|u users] [|d ds] [|e es] [|p ps];
    cbn [length]; intros Hu Hd He Hp; try discriminate.
  - exists []. by repeat split.
  - destruct (IH users ds es ps) as (D & HD & Hi & Hus & Hds & Hes & Hps & Hm);
      [congruence..|].
    exists (mkRow i u d e p (period_str d) :: D). cbn [make_frame].
    rewrite HD. cbn. repeat split; try congruence. by constructor.
Qed.

Lemma make_frame_ragged (ids users : list Z) (ds : list Date)
    (es : list string) (ps : list Q) D :
  make_frame ids users ds es ps = Ok D →
  length users = length ids ∧ length ds = length ids ∧
  length es = length ids ∧ length ps = length ids.
Proof.
  revert users ds es ps D.
  induction ids as [|i ids IH]; intros [|u users] [|d ds] [|e es] [|p ps] D;
    cbn [make_frame length]; try discriminate; [done|].
  destruct (make_frame ids users ds es ps) as [D'|] eqn:HD; [|discriminate].
  intros _. destruct (IH _ _ _ _ _ HD) as (-> & -> & -> & ->). done.
Qed.

Section GeneratorFacts.
Variable rng : Type.
Variable seed : Z → rng.
Variable randint : Z → Z → Z → rng → list Z * rng.
Variable choice : ∀ A : Type, list A → option (list Q) → Z → rng → list A * rng.
Variable uniform : Q → Q → Z → rng → list Q * rng.

Let generate (n s : Z) := generate_data rng seed randint choice uniform n s.

(** C9: two runs of the generator with the same record count and seed
    return the same dataset, rows, order and month column included,
    whatever state the global random generator was in before each run, and
    leave it in the same state; in particular a second run that starts where
    the first one stopped returns the first one's dataset again. *)
Theorem generate_data_deterministic (n s : Z) (g g' : rng) :
  generate_data rng seed randint choice uniform n s g =
  generate_data rng seed randint choice uniform n s g' ∧
  (generate_data rng seed randint choice uniform n s
     (generate_data rng seed randint choice uniform n s g).2).1 =
  (generate_data rng seed randint choice uniform n s g).1.
Proof.
  assert (∀ h h', generate n s h = generate n s h') as Hreset.
  { intros h h'. unfold generate, generate_data.
    (* the body reads the state only through [seed s] *)
    reflexivity. }
  split; [apply Hreset|].
  apply (f_equal fst), Hreset.
Qed.

(** Draws made in between do not matter either. *)
Lemma generate_data_after_draws (n s k : Z) (g : rng) :
  (generate n s (randint 1 2000 k g).2).1 = (generate n s g).1.
Proof. reflexivity. Qed.

Lemma generate_data_negative (n s : Z) (g : rng) :
  n < 0 → generate n s g = (Raise ValueError, seed s).
Proof.
  intros Hn. unfold generate, generate_data.
  by rewrite (proj2 (Z.ltb_lt n 0) Hn).
Qed.

(** ** The cache in front of the generator *)

Let coherent := coherent rng seed randint choice uniform.

Lemma coherent_empty : coherent ∅.
Proof. intros n s D HD. by rewrite lookup_empty in HD. Qed.

Lemma coherent_expire store k : coherent store → coherent (delete k store).
Proof.
  intros Hc n s D HD. apply Hc.
  apply lookup_delete_Some in HD as [_ HD]. exact HD.
Qed.


(** What numpy promises about the draws: the requested number of values,
    and for [choice] values of the population. *)
Hypothesis randint_length : ∀ lo hi n g,
  0 ≤ n → length (randint lo hi n g).1 = Z.to_nat n.
Hypothesis choice_length : ∀ A (l : list A) p n g,
  0 ≤ n → l ≠ [] → length (choice A l p n g).1 = Z.to_nat n.
Hypothesis choice_elem : ∀ A (l : list A) p n g x,
  x ∈ (choice A l p n g).1 → x ∈ l.
Hypothesis uniform_length : ∀ a b n g,
  0 ≤ n → length (uniform a b n g).1 = Z.to_nat n.

(** The generated frame: [n] rows, ids 0 .. n-1 in order, dates in 2024,
    the three event names, and on every row the month key of its date. *)
Lemma generate_data_frame (n s : Z) (g : rng) :
  0 ≤ n →
  ∃ D, (generate n s g).1 = Ok D ∧
       length D = Z.to_nat n ∧
       event_id <$> D = arange n ∧
       Forall (λ r, date r ∈ dates_2024) D ∧
       Forall (λ r, event r ∈ funnel_order) D ∧
       Forall month_derived D.
Proof.
  intros Hn. unfold generate, generate_data.
  rewrite (proj2 (Z.ltb_ge n 0) Hn).
  pose proof (randint_length 1 2000 n (seed s) Hn) as Hlu.
  destruct (randint 1 2000 n (seed s)) as [users g1]. cbn [fst] in Hlu.
  assert (dates_2024 ≠ []) as Hne by done.
  pose proof (choice_length Date dates_2024 None n g1 Hn Hne) as Hld.
  pose proof (choice_elem Date dates_2024 None n g1) as Hed.
  destruct (choice Date dates_2024 None n g1) as [ds g2]. cbn [fst] in Hld, Hed.
  set (names := ["view"; "add_to_cart"; "purchase"]%string).
  set (p := Some [6 # 10; 25 # 100; 15 # 100]%Q).
  assert (names ≠ []) as Hne' by done.
  pose proof (choice_length string names p n g2 Hn Hne') as Hle.
  pose proof (choice_elem string names p n g2) as Hee.
  destruct (choice string names p n g2) as [es g3]. cbn [fst] in Hle, Hee.
  pose proof (uniform_length 5 300 n g3 Hn) as Hlp.
  destruct (uniform 5 300 n g3) as [ps g4]. cbn [fst] in Hlp |- *.
  assert (length (arange n) = Z.to_nat n) as Hla by apply length_seqZ.
  destruct (make_frame_ok (arange n) users ds es (round2 <$> ps))
    as (D & HD & Hi & _ & Hds & Hes & _ & Hm);
    [rewrite ?length_fmap; congruence..|].
  exists D. split; [done|].
  assert (Forall (λ r, date r ∈ dates_2024) D) as Hdates.
  { apply Forall_forall. intros r Hr. apply Hed. rewrite <- Hds.
    apply list_elem_of_fmap. by exists r. }
  repeat split; try done.
  - by rewrite <- (length_fmap event_id), Hi.
  - apply Forall_forall. intros r Hr. apply Hee. rewrite <- Hes.
    apply list_elem_of_fmap. by exists r.
  - apply Forall_forall. intros r Hr. split.
    + by eapply Forall_forall in Hm.
    + eapply Forall_forall in Hdates; [|done].
      exact (proj1 (Forall_forall _ _) dates_2024_in_range _ Hdates).
Qed.
End GeneratorFacts.

Module CounterRngFacts.
Import CounterRng.

Lemma counter_randint_length lo hi n g :
  0 ≤ n → length (randint lo hi n g).1 = Z.to_nat n.
Proof. intros _. cbn. by rewrite length_fmap, length_seqZ. Qed.

Lemma counter_choice_length A (l : list A) p n g :
  0 ≤ n → l ≠ [] → length (choice A l p n g).1 = Z.to_nat n.
Proof.
  intros _ Hl. destruct l as [|x l]; [done|].
  cbn [choice fst]. by rewrite length_fmap, length_seqZ.
Qed.

Lemma counter_choice_elem A (l : list A) p n g x :
  x ∈ (choice A l p n g).1 → x ∈ l.
Proof.
  destruct l as [|y l]; [done|]. cbn [choice fst]. intros Hx.
  destruct (proj1 (list_elem_of_fmap _ _ _) Hx) as (i & -> & _).
  apply nth_elem_of.
  pose proof (Z.mod_pos_bound (g + i) (Z.of_nat (length (y :: l)))) as Hb.
  cbn [length] in *. lia.
Qed.

Lemma counter_uniform_length a b n g :
  0 ≤ n → length (uniform a b n g).1 = Z.to_nat n.
Proof. intros _. cbn. by rewrite length_fmap, length_seqZ. Qed.

Example generate_two_rows :
  (generate 2 42 0).1 =
  Ok [mkRow 0 43 (mkDate 2024 2 14) "add_to_cart" (1916 # 100) "2024-02";
      mkRow 1 44 (mkDate 2024 2 15) "purchase" (1946 # 100) "2024-02"].
Proof. reflexivity. Qed.

Lemma generate_frame (n s : Z) (g : rng) :
  0 ≤ n →
  ∃ D, (generate n s g).1 = Ok D ∧
       length D = Z.to_nat n ∧
       event_id <$> D = arange n ∧
       Forall (λ r, date r ∈ dates_2024) D ∧
       Forall (λ r, event r ∈ funnel_order) D ∧
       Forall month_derived D.
Proof.
  apply generate_data_frame.
  - apply counter_randint_length.
  - apply counter_choice_length.
  - apply counter_choice_elem.
  - apply counter_uniform_length.
Qed.
End CounterRngFacts.

(** ** The whole pass *)

Lemma Forall_view (P : Row → Prop) (D : DataFrame) events lo hi :
  Forall P D → Forall P (filter (keeps events lo hi) D).
Proof.
  intros HD. apply Forall_forall. intros r Hr.
  apply list_elem_of_filter in Hr as [_ Hr].
  by eapply Forall_forall in HD.
Qed.

(** The identity filter: when every row meets the criteria the view is the
    dataset. *)
Lemma view_identity (D : DataFrame) events lo hi :
  Forall (keeps events lo hi) D → view D events [lo; hi] = Ok D.
Proof.
  intros HD. rewrite view_pair. f_equal.
  induction HD as [|r D Hr _ IH]; [done|].
  by rewrite filter_cons, decide_True, IH.
Qed.

(** On a view that carries the month keys of its dates no step of the
    aggregation raises. *)
Lemma aggregate_total (v : DataFrame) :
  Forall month_derived v →
  ∃ d, aggregate v = Ok d ∧
       d_view d = v ∧ d_funnel d = funnel v ∧
       d_views d = unique_views v ∧ d_adds d = unique_adds v ∧
       d_purchases d = unique_purchases v ∧
       conv_view_to_add v = Ok (d_conv_view_to_add d) ∧
       conv_add_to_purchase v = Ok (d_conv_add_to_purchase d) ∧
       d_cart_abandonment_rate d = (1 - d_conv_add_to_purchase d)%Q ∧
       d_avg_order_value d = avg_order_value v ∧
       monthly v = Ok (d_monthly d).
Proof.
  intros Hv. unfold aggregate, cart_abandonment_rate.
  unfold conv_view_to_add, conv_add_to_purchase.
  rewrite !guarded_truediv, (monthly_ok v Hv). cbn [rbind].
  eexists. split; [reflexivity|]. cbn. by repeat split.
Qed.

(** With two dates selected, a run over a dataset as line 25 leaves it
    shows no message and returns every aggregate. *)
Lemma run_total (D : DataFrame) events lo hi :
  Forall month_derived D →
  ∃ d, run D events [lo; hi] = ([], Ok d) ∧
       d_view d = filter (keeps events lo hi) D.
Proof.
  intros HD. unfold run. rewrite view_pair. cbn [rbind].
  destruct (aggregate_total (filter (keeps events lo hi) D)) as (d & Hd & Hv & _).
  { by apply Forall_view. }
  exists d. by rewrite Hd.
Qed.

Example four_records_dashboard :
  run four_records funnel_order [mkDate 2024 1 1; mkDate 2024 12 31] =
  ([], Ok (mkDashboard four_records
             [mkFunnelRow "add_to_cart" 1; mkFunnelRow "purchase" 1;
              mkFunnelRow "view" 2]
             2 1 1 (1 # 2) 1%Q 0%Q (Num 100%Q)
             [mkMonthlyRow (mkDate 2024 1 1) 1 100%Q])).
Proof. reflexivity. Qed.

(** Only purchases selected, none in range: average order value 0, empty
    monthly series, no error. *)
Example no_purchase_in_range :
  run four_records ["purchase"%string] [mkDate 2024 3 1; mkDate 2024 3 31] =
  ([], Ok (mkDashboard [] [] 0 0 0 0%Q 0%Q 1%Q (Num 0%Q) [])).
Proof. reflexivity. Qed.

(** * Further properties of the pipeline *)

(** ** Widget defaults *)

Lemma elem_of_unique_from (seen xs : list string) x :
  x ∈ unique_from seen xs ↔ x ∈ xs ∧ x ∉ seen.
Proof.
  revert seen. induction xs as [|y xs IH]; intros seen; cbn [unique_from].
  - split; [by intros ?%elem_of_nil | by intros [?%elem_of_nil _]].
  - case_bool_decide as Hy.
    + rewrite IH, elem_of_cons. split; [intros [Hx Hns]; split; [by right|done]|].
      intros [[-> | Hx] Hns]; [done | by split].
    + rewrite !elem_of_cons, IH, elem_of_cons. split.
      * intros [-> | [Hx Hns]]; [by split; [left|] | split; [by right|]].
        intros Hs. apply Hns. by right.
      * intros [[-> | Hx] Hns]; [by left|].
        destruct (decide (x = y)) as [-> | Hne]; [by left|].
        right. split; [done|]. by intros [? | ?].
Qed.

Lemma elem_of_unique (xs : list string) x : x ∈ unique xs ↔ x ∈ xs.
Proof.
  unfold unique. rewrite elem_of_unique_from. split; [by intros [? _]|].
  intros Hx. split; [done|]. by intros ?%elem_of_nil.
Qed.

Lemma date_min_le (ds : list Date) :
  match date_min ds with
  | None => ds = []
  | Some m => m ∈ ds ∧ Forall (date_le m) ds
  end.
Proof.
  induction ds as [|d ds IH]; [done|]. cbn [date_min foldr].
  fold (date_min ds). destruct (date_min ds) as [m|].
  - destruct IH as [Hm Hall]. destruct (date_leb d m) eqn:Hdm.
    + split; [by left|]. constructor; [done|].
      eapply Forall_impl; [exact Hall|]. intros x Hx.
      exact (date_le_trans d m x Hdm Hx).
    + split; [by right|]. constructor; [|done].
      destruct (date_le_total d m) as [H|H]; [|done].
      unfold date_le in H. congruence.
  - subst ds. split; [by left|]. by repeat constructor.
Qed.

Lemma date_max_ge (ds : list Date) :
  match date_max ds with
  | None => ds = []
  | Some m => m ∈ ds ∧ Forall (λ d, date_le d m) ds
  end.
Proof.
  induction ds as [|d ds IH]; [done|]. cbn [date_max foldr].
  fold (date_max ds). destruct (date_max ds) as [m|].
  - destruct IH as [Hm Hall]. destruct (date_leb m d) eqn:Hmd.
    + split; [by left|]. constructor; [done|].
      eapply Forall_impl; [exact Hall|]. intros x Hx.
      exact (date_le_trans x m d Hx Hmd).
    + split; [by right|]. constructor; [|done].
      destruct (date_le_total m d) as [H|H]; [|done].
      unfold date_le in H. congruence.
  - subst ds. split; [by left|]. by repeat constructor.
Qed.

(** X1: on a dataset with at least one row, the values the two sidebar
    widgets start with (every event name that occurs, and the earliest and
    latest date of the date column) show no message and select the whole
    dataset, unchanged. *)
Theorem default_widgets_select_everything (D : DataFrame) :
  D ≠ [] →
  ∃ lo hi, date_min (date <$> D) = Some lo ∧
           date_max (date <$> D) = Some hi ∧
           sidebar_errors [lo; hi] = [] ∧
           view D (default_events D) [lo; hi] = Ok D.
Proof.
  intros Hne.
  pose proof (date_min_le (date <$> D)) as Hmin.
  pose proof (date_max_ge (date <$> D)) as Hmax.
  destruct (date_min (date <$> D)) as [lo|];
    [|by apply fmap_nil_inv in Hmin].
  destruct (date_max (date <$> D)) as [hi|];
    [|by apply fmap_nil_inv in Hmax].
  exists lo, hi. repeat split; try done.
  apply view_identity. apply Forall_forall. intros r Hr.
  assert (date r ∈ date <$> D) as Hd by (apply list_elem_of_fmap; by exists r).
  split; [|split].
  - apply elem_of_unique, list_elem_of_fmap. by exists r.
  - destruct Hmin as [_ Hall]. by eapply Forall_forall in Hall.
  - destruct Hmax as [_ Hall]. by eapply Forall_forall in Hall.
Qed.

Lemma default_widgets_select_everything_witness :
  four_records ≠ [] ∧
  ∃ lo hi, date_min (date <$> four_records) = Some lo ∧
           date_max (date <$> four_records) = Some hi ∧
           sidebar_errors [lo; hi] = [] ∧
           view four_records (default_events four_records) [lo; hi]
             = Ok four_records.
Proof.
  assert (four_records ≠ []) as Hne by discriminate.
  split; [exact Hne|].
  exact (default_widgets_select_everything four_records Hne).
Defined.

(** ** More on the filter *)

(** X2: with two dates selected, a row is in the view exactly when it is in
    the dataset, its event is selected and its date is in the closed
    interval; and the view is the whole dataset exactly when every row of
    the dataset is such a row. *)
Theorem view_holds_exactly_the_matches (D : DataFrame) (events : list string)
    (lo hi : Date) :
  ∃ v, view D events [lo; hi] = Ok v ∧
       (∀ r, r ∈ v ↔ r ∈ D ∧ event r ∈ events ∧ date_le lo (date r)
                     ∧ date_le (date r) hi) ∧
       (v = D ↔ Forall (λ r, event r ∈ events ∧ date_le lo (date r)
                             ∧ date_le (date r) hi) D).
Proof.
  exists (filter (keeps events lo hi) D). split; [apply view_pair|]. split.
  - intros r. rewrite list_elem_of_filter. unfold keeps. tauto.
  - split.
    + intros Heq. rewrite <- Heq. apply Forall_forall. intros r Hr.
      by apply list_elem_of_filter in Hr as [Hk _].
    + intros Hall. pose proof (view_identity D events lo hi Hall) as Hid.
      rewrite view_pair in Hid. by injection Hid.
Qed.

Lemma filter_keeps_narrower (D : DataFrame) events1 events2 lo1 hi1 lo2 hi2 :
  events2 ⊆ events1 → date_le lo1 lo2 → date_le hi2 hi1 →
  filter (keeps events2 lo2 hi2) (filter (keeps events1 lo1 hi1) D) =
  filter (keeps events2 lo2 hi2) D.
Proof.
  intros Hev Hlo Hhi. rewrite list_filter_filter. apply list_filter_iff.
  intros r. unfold keeps. split; [tauto|].
  intros (He & Hl & Hh). repeat split; try done.
  - by apply Hev.
  - by etrans.
  - by etrans.
Qed.

(** X3: narrowing a selection (fewer event names, a later start, an
    earlier end) and filtering the wider view again gives the same view as
    filtering the dataset with the narrower selection, and that view is a
    subsequence of the wider one. *)
Theorem narrower_selection_refilters (D : DataFrame)
    (events1 events2 : list string) (lo1 hi1 lo2 hi2 : Date) :
  events2 ⊆ events1 → date_le lo1 lo2 → date_le hi2 hi1 →
  ∃ v1 v2, view D events1 [lo1; hi1] = Ok v1 ∧
           view D events2 [lo2; hi2] = Ok v2 ∧
           view v1 events2 [lo2; hi2] = Ok v2 ∧
           v2 `sublist_of` v1.
Proof.
  intros Hev Hlo Hhi.
  exists (filter (keeps events1 lo1 hi1) D), (filter (keeps events2 lo2 hi2) D).
  rewrite !view_pair. repeat split.
  - f_equal. by apply filter_keeps_narrower.
  - rewrite <- (filter_keeps_narrower D events1 events2 lo1 hi1 lo2 hi2)
      by done.
    apply sublist_filter.
Qed.

Lemma narrower_selection_refilters_witness :
  ["purchase"%string] ⊆ funnel_order ∧
  date_le (mkDate 2024 1 1) (mkDate 2024 1 11) ∧
  date_le (mkDate 2024 1 31) (mkDate 2024 12 31) ∧
  ∃ v1 v2,
    view four_records funnel_order [mkDate 2024 1 1; mkDate 2024 12 31] = Ok v1 ∧
    view four_records ["purchase"%string] [mkDate 2024 1 11; mkDate 2024 1 31]
      = Ok v2 ∧
    view v1 ["purchase"%string] [mkDate 2024 1 11; mkDate 2024 1 31] = Ok v2 ∧
    v2 `sublist_of` v1.
Proof.
  assert (["purchase"%string] ⊆ funnel_order) as Hev.
  { intros e He. apply list_elem_of_singleton in He as ->.
    apply (bool_decide_unpack _). reflexivity. }
  assert (date_le (mkDate 2024 1 1) (mkDate 2024 1 11)) as Hlo by reflexivity.
  assert (date_le (mkDate 2024 1 31) (mkDate 2024 12 31)) as Hhi by reflexivity.
  split; [exact Hev|]. split; [exact Hlo|]. split; [exact Hhi|].
  exact (narrower_selection_refilters four_records funnel_order
           ["purchase"%string] _ _ _ _ Hev Hlo Hhi).
Defined.

(** ** Totals of a group-by *)

Lemma sumZ_add {A} (f g : A → Z) (l : list A) :
  sumZ ((λ x, f x + g x) <$> l) = sumZ (f <$> l) + sumZ (g <$> l).
Proof. induction l as [|x l IH]; [done|]. cbn. unfold sumZ in *. lia. Qed.

Lemma sumZ_indicator (x : string) (ks : list string) :
  NoDup ks →
  sumZ ((λ k, if decide (x = k) then 1 else 0) <$> ks) =
  if decide (x ∈ ks) then 1 else 0.
Proof.
  induction 1 as [|k ks Hk Hnd IH]; [done|]. cbn. fold sumZ.
  change (foldr Z.add 0) with sumZ. rewrite IH.
  destruct (decide (x = k)) as [->|Hne].
  - rewrite decide_False by done. rewrite decide_True by (by left). lia.
  - destruct (decide (x ∈ ks)) as [Hin|Hnin].
    + rewrite decide_True by (by right). lia.
    + rewrite decide_False; [lia|]. by intros [?|?]%elem_of_cons.
Qed.


(** Every row falls in the group of exactly one key. *)
Lemma group_lengths_total (key : Row → string) (D : DataFrame)
    (ks : list string) :
  NoDup ks → (∀ r, r ∈ D → key r ∈ ks) →
  sumZ ((λ k, Z.of_nat (length (filter (λ r, key r = k) D))) <$> ks)
  = Z.of_nat (length D).
Proof.
  intros Hnd. induction D as [|r D IH]; intros Hks.
  - clear Hnd Hks. induction ks as [|k ks IHk]; [done|]. exact IHk.
  - rewrite <- (list_fmap_ext
      (λ k, (if decide (key r = k) then 1 else 0)
            + Z.of_nat (length (filter (λ r', key r' = k) D)))).
    + rewrite sumZ_add, sumZ_indicator by done.
      rewrite decide_True by (apply Hks; by left).
      rewrite IH; [cbn [length]; lia|].
      intros r' Hr'. apply Hks. by right.
    + intros i k _. rewrite filter_cons.
      destruct (decide (key r = k)); cbn [length]; lia.
Qed.

Lemma groupby_lengths_total (key : Row → string) (D : DataFrame) :
  sumZ ((λ g, Z.of_nat (length g.2)) <$> groupby key D) = Z.of_nat (length D).
Proof.
  unfold groupby. rewrite <- list_fmap_compose.
  apply (group_lengths_total key D).
  - rewrite merge_sort_Permutation. apply NoDup_remove_dups.
  - intros r Hr. apply elem_of_group_keys, list_elem_of_fmap. by exists r.
Qed.

(** X4: the counts of the funnel table add up to the number of rows of the
    view: every row is counted once, under its own event. *)
Theorem funnel_counts_add_up (v : DataFrame) :
  sumZ (f_count <$> funnel v) = Z.of_nat (length v).
Proof.
  unfold funnel. rewrite <- list_fmap_compose.
  apply (groupby_lengths_total event v).
Qed.

(** ** Rows of the funnel table *)

Lemma funnel_counts_rows (v : DataFrame) (e : string) (c : Z) :
  mkFunnelRow e c ∈ funnel v ↔
  e ∈ event <$> v ∧ c = Z.of_nat (length (filter (λ r, event r = e) v)).
Proof.
  unfold funnel. split.
  - intros Hrow.
    destruct (proj1 (list_elem_of_fmap _ _ _) Hrow) as ([k g] & Heq & Hin).
    cbn in Heq.
    destruct (proj1 (elem_of_groupby _ _ _ _) Hin) as [Hk ->].
    by injection Heq as -> ->.
  - intros [He ->]. apply list_elem_of_fmap.
    exists (e, filter (λ r, event r = e) v).
    split; [done|]. by apply (proj2 (elem_of_groupby _ _ _ _)).
Qed.

(** ** The funnel on the three event names *)

Lemma StronglySorted_filter {A} (R : relation A) (P : A → Prop)
    `{!∀ x, Decision (P x)} (l : list A) :
  StronglySorted R l → StronglySorted R (filter P l).
Proof.
  induction 1 as [|x l Hl IH Hx]; [constructor|].
  rewrite filter_cons. destruct (decide (P x)); [|done].
  constructor; [done|].
  apply Forall_forall. intros y Hy. apply list_elem_of_filter in Hy as [_ Hy].
  by eapply Forall_forall in Hx.
Qed.

Lemma sorted_event_names :
  StronglySorted String.le ["add_to_cart"; "purchase"; "view"]%string.
Proof. apply (bool_decide_unpack _). reflexivity. Qed.

Lemma group_keys_of_event_names (keys : list string) :
  Forall (λ k, k ∈ funnel_order) keys →
  merge_sort String.le (remove_dups keys) =
  filter (λ e, e ∈ keys) ["add_to_cart"; "purchase"; "view"]%string.
Proof.
  intros Hkeys. apply (StronglySorted_unique String.le).
  - apply StronglySorted_merge_sort; apply _.
  - apply StronglySorted_filter, sorted_event_names.
  - apply NoDup_Permutation.
    + rewrite merge_sort_Permutation. apply NoDup_remove_dups.
    + apply NoDup_filter. apply (bool_decide_unpack _). reflexivity.
    + intros k. rewrite elem_of_group_keys, list_elem_of_filter.
      split; [|tauto]. intros Hk. split; [done|].
      eapply Forall_forall in Hkeys; [|done]. unfold funnel_order in Hkeys.
      rewrite !elem_of_cons in Hkeys. rewrite !elem_of_cons. tauto.
Qed.

(** X5: when every row of the view carries one of the three event names,
    the funnel table is the list add_to_cart, purchase, view with the names
    that do not occur in the view left out, each with the number of rows of
    the view that carry it. *)
Theorem funnel_of_event_names (v : DataFrame) :
  Forall (λ r, event r ∈ funnel_order) v →
  funnel v =
  (λ e, mkFunnelRow e (Z.of_nat (length (filter (λ r, event r = e) v))))
    <$> filter (λ e, e ∈ event <$> v) ["add_to_cart"; "purchase"; "view"]%string.
Proof.
  intros Hv. unfold funnel, groupby. rewrite <- list_fmap_compose.
  rewrite (group_keys_of_event_names (map event v)).
  - by apply list_fmap_ext.
  - apply Forall_fmap. exact Hv.
Qed.

Lemma funnel_of_event_names_witness :
  Forall (λ r, event r ∈ funnel_order) no_add_to_cart ∧
  funnel no_add_to_cart =
  (λ e, mkFunnelRow e
          (Z.of_nat (length (filter (λ r, event r = e) no_add_to_cart))))
    <$> filter (λ e, e ∈ event <$> no_add_to_cart)
          ["add_to_cart"; "purchase"; "view"]%string.
Proof.
  assert (Forall (λ r, event r ∈ funnel_order) no_add_to_cart) as Hv.
  { apply (bool_decide_unpack _). reflexivity. }
  split; [exact Hv|]. exact (funnel_of_event_names no_add_to_cart Hv).
Defined.

(** ** Unique users against raw events *)

Lemma nunique_le_length (xs : list Z) : nunique xs ≤ Z.of_nat (length xs).
Proof.
  unfold nunique. apply inj_le.
  induction xs as [|x xs IH]; [done|]. cbn.
  destruct (decide_rel elem_of x xs); cbn; lia.
Qed.

(** X6: a unique-user metric is 0 when the funnel table has no row for its
    event, and otherwise lies between 1 and the count in that row: users are
    counted once however many events they have. *)
Theorem unique_users_within_funnel_counts (v : DataFrame) :
  let within (e : string) (u : Z) :=
    (e ∉ f_event <$> funnel v → u = 0) ∧
    (∀ c, mkFunnelRow e c ∈ funnel v → 1 ≤ u ≤ c) in
  within "view"%string (unique_views v) ∧
  within "add_to_cart"%string (unique_adds v) ∧
  within "purchase"%string (unique_purchases v).
Proof.
  assert (∀ e, (e ∉ f_event <$> funnel v →
                nunique (map user_id (where_event v e)) = 0) ∧
               (∀ c, mkFunnelRow e c ∈ funnel v →
                1 ≤ nunique (map user_id (where_event v e)) ≤ c)) as Hall.
  { intros e. pose proof (funnel_counts_rows v) as Hrows. split.
    - intros Hnot. apply nunique_zero.
      destruct (where_event v e) as [|r rs] eqn:Hw; [done|]. destruct Hnot.
      assert (r ∈ where_event v e) as Hr by (rewrite Hw; left).
      apply list_elem_of_filter in Hr as [He Hr].
      apply list_elem_of_fmap.
      exists (mkFunnelRow e (Z.of_nat (length (filter (λ r, event r = e) v)))).
      split; [done|]. apply Hrows. split; [|done].
      apply list_elem_of_fmap. by exists r.
    - intros c Hc. apply Hrows in Hc as [He ->]. split.
      + pose proof (nunique_nonneg (map user_id (where_event v e))) as Hnn.
        pose proof (nunique_zero (map user_id (where_event v e))) as Hz.
        pose proof (group_nonempty event v e He) as Hne.
        assert (nunique (map user_id (where_event v e)) ≠ 0); [|lia].
        intros H0. apply Hz in H0. apply Hne.
        by apply fmap_nil_inv in H0.
      + etrans; [apply nunique_le_length|].
        rewrite length_map. done. }
  cbv zeta. unfold unique_views, unique_adds, unique_purchases.
  split; [apply Hall|]. split; apply Hall.
Qed.

(** ** The average order value, unfolded *)

Lemma avg_order_value_prices (v : DataFrame) :
  avg_order_value v =
  match where_event v "purchase" with
  | [] => Num 0%Q
  | rs => mean (price <$> rs)
  end.
Proof.
  unfold avg_order_value, unique_purchases.
  destruct (where_event v "purchase") as [|r rs] eqn:Hw; [done|].
  rewrite (proj2 (truthy_true _)); [done|].
  rewrite nunique_zero. discriminate.
Qed.

(** ** Deselected events *)

Lemma where_event_deselected (D : DataFrame) events lo hi e :
  e ∉ events → where_event (filter (keeps events lo hi) D) e = [].
Proof.
  intros He. unfold where_event. rewrite list_filter_filter.
  induction D as [|r D IH]; [done|].
  rewrite filter_cons, decide_False; [exact IH|].
  intros [<- (Hev & _)]. done.
Qed.

Lemma Qdiv_Z_zero (b : Z) : (inject_Z 0 / inject_Z b == 0)%Q.
Proof. unfold Qdiv. apply Qmult_0_l. Qed.

(** X7: with two dates selected, if "view" or "add_to_cart" is not among
    the selected events the view->add rate is 0; and if "add_to_cart" is not
    selected the add->purchase rate is 0 and the cart abandonment rate is 1,
    whatever the dataset holds. *)
Theorem deselecting_view_or_add_to_cart (D : DataFrame)
    (events : list string) (lo hi : Date) :
  "view"%string ∉ events ∨ "add_to_cart"%string ∉ events →
  ∃ v q, view D events [lo; hi] = Ok v ∧
         conv_view_to_add v = Ok q ∧ (q == 0)%Q ∧
         ("add_to_cart"%string ∉ events →
            unique_adds v = 0 ∧
            conv_add_to_purchase v = Ok 0%Q ∧
            cart_abandonment_rate v = Ok 1%Q).
Proof.
  intros Hsel. set (v := filter (keeps events lo hi) D).
  assert ("add_to_cart"%string ∉ events → unique_adds v = 0) as Hadds.
  { intros Ha. unfold unique_adds, v. by rewrite where_event_deselected. }
  assert ("add_to_cart"%string ∉ events →
          unique_adds v = 0 ∧ conv_add_to_purchase v = Ok 0%Q
          ∧ cart_abandonment_rate v = Ok 1%Q) as Hrest.
  { intros Ha. specialize (Hadds Ha). split; [done|].
    unfold cart_abandonment_rate, conv_add_to_purchase.
    by rewrite Hadds. }
  pose proof (guarded_truediv (unique_adds v) (unique_views v)) as Hconv.
  fold (conv_view_to_add v) in Hconv.
  destruct (decide (unique_views v = 0)) as [Hz|Hnz].
  - exists v, 0%Q. split; [apply view_pair|]. split; [done|].
    split; [reflexivity|done].
  - exists v, (inject_Z (unique_adds v) / inject_Z (unique_views v))%Q.
    split; [apply view_pair|]. split; [done|]. split; [|done].
    destruct Hsel as [Hv|Ha].
    + destruct Hnz. unfold unique_views, v. by rewrite where_event_deselected.
    + rewrite (Hadds Ha). apply Qdiv_Z_zero.
Qed.

Lemma deselecting_view_or_add_to_cart_witness :
  ("view"%string ∉ ["view"; "purchase"]%string
   ∨ "add_to_cart"%string ∉ ["view"; "purchase"]%string) ∧
  ∃ v q, view four_records ["view"; "purchase"]%string
              [mkDate 2024 1 1; mkDate 2024 12 31] = Ok v ∧
         conv_view_to_add v = Ok q ∧ (q == 0)%Q ∧
         ("add_to_cart"%string ∉ ["view"; "purchase"]%string →
            unique_adds v = 0 ∧
            conv_add_to_purchase v = Ok 0%Q ∧
            cart_abandonment_rate v = Ok 1%Q).
Proof.
  assert ("view"%string ∉ ["view"; "purchase"]%string
          ∨ "add_to_cart"%string ∉ ["view"; "purchase"]%string) as Hsel.
  { right. apply (bool_decide_eq_false_1 _). reflexivity. }
  split; [exact Hsel|].
  exact (deselecting_view_or_add_to_cart four_records _ _ _ Hsel).
Defined.

(** X8: with two dates selected, if "purchase" is not among the selected
    events there is no purchaser, the average order value is 0, the monthly
    series is empty and produced without error, and the add->purchase rate
    is 0, whatever the dataset holds. *)
Theorem deselecting_purchase (D : DataFrame) (events : list string)
    (lo hi : Date) :
  "purchase"%string ∉ events →
  ∃ v q, view D events [lo; hi] = Ok v ∧
         unique_purchases v = 0 ∧
         avg_order_value v = Num 0%Q ∧
         monthly v = Ok [] ∧
         conv_add_to_purchase v = Ok q ∧ (q == 0)%Q.
Proof.
  intros Hp. set (v := filter (keeps events lo hi) D).
  assert (where_event v "purchase" = []) as Hw
    by by apply where_event_deselected.
  assert (unique_purchases v = 0) as Hz
    by (unfold unique_purchases; by rewrite Hw).
  pose proof (guarded_truediv (unique_purchases v) (unique_adds v)) as Hconv.
  fold (conv_add_to_purchase v) in Hconv.
  exists v. eexists. split; [apply view_pair|]. split; [done|].
  split; [|split; [|split; [exact Hconv|]]].
  - unfold avg_order_value. by rewrite Hz.
  - unfold monthly, monthly_agg. by rewrite Hw.
  - destruct (decide (unique_adds v = 0)); [reflexivity|].
    rewrite Hz. apply Qdiv_Z_zero.
Qed.

Lemma deselecting_purchase_witness :
  ("purchase"%string ∉ ["view"; "add_to_cart"]%string) ∧
  ∃ v q, view four_records ["view"; "add_to_cart"]%string
              [mkDate 2024 1 1; mkDate 2024 12 31] = Ok v ∧
         unique_purchases v = 0 ∧
         avg_order_value v = Num 0%Q ∧
         monthly v = Ok [] ∧
         conv_add_to_purchase v = Ok q ∧ (q == 0)%Q.
Proof.
  assert ("purchase"%string ∉ ["view"; "add_to_cart"]%string) as Hp.
  { apply (bool_decide_eq_false_1 _). reflexivity. }
  split; [exact Hp|].
  exact (deselecting_purchase four_records _ _ _ Hp).
Defined.

(** ** Ranges of the abandonment rate and the average order value *)

(** X9: the cart abandonment rate never exceeds 1; it is negative exactly
    when somebody added to cart and the distinct purchasers outnumber the
    distinct adders. *)
Theorem cart_abandonment_range (v : DataFrame) :
  ∃ r, cart_abandonment_rate v = Ok r ∧ (r <= 1)%Q ∧
       ((r < 0)%Q ↔ 0 < unique_adds v < unique_purchases v).
Proof.
  unfold cart_abandonment_rate, conv_add_to_purchase.
  rewrite guarded_truediv. eexists. split; [reflexivity|].
  pose proof (nunique_nonneg (map user_id (where_event v "add_to_cart"))) as Ha.
  pose proof (nunique_nonneg (map user_id (where_event v "purchase"))) as Hp.
  fold (unique_adds v) in Ha. fold (unique_purchases v) in Hp.
  destruct (decide (unique_adds v = 0)) as [Hz|Hnz].
  - split; [done|]. split; [intros H; by vm_compute in H | lia].
  - assert (0 < unique_adds v) as Hpos by lia.
    pose proof (Qdiv_Z_nonneg _ _ Hp Hpos) as Hq.
    pose proof (Qdiv_Z_le_1 (unique_purchases v) _ Hpos) as Hle.
    set (q := (inject_Z (unique_purchases v) / inject_Z (unique_adds v))%Q) in *.
    split; [lra|]. split.
    + intros Hneg. split; [done|].
      destruct (decide (unique_purchases v ≤ unique_adds v)) as [Hpa|]; [|lia].
      apply Hle in Hpa. lra.
    + intros [_ Hlt]. apply Qnot_le_lt. intros Hge.
      assert (q <= 1)%Q as Hq1 by lra. apply Hle in Hq1. lia.
Qed.

(** Two purchasers, one of whom added to cart. *)
Example cart_abandonment_negative :
  cart_abandonment_rate
    [mkRow 0 1 (mkDate 2024 1 5) "add_to_cart" 10%Q "2024-01";
     mkRow 1 1 (mkDate 2024 1 6) "purchase" 10%Q "2024-01";
     mkRow 2 2 (mkDate 2024 1 7) "purchase" 25%Q "2024-01"] = Ok (-1)%Q.
Proof. reflexivity. Qed.




(** ** Totals of the monthly series *)







(** ** Month keys in lexical and in calendar order *)

Lemma ascii_compare_digit (m n : Z) :
  Ascii.compare (digit m) (digit n) = (m mod 10 ?= n mod 10).
Proof.
  unfold digit.
  pose proof (Z.mod_pos_bound m 10 eq_refl) as Hm.
  pose proof (Z.mod_pos_bound n 10 eq_refl) as Hn.
  generalize dependent (n mod 10). generalize dependent (m mod 10).
  intros j Hj k Hk.
  assert (j = 0 ∨ j = 1 ∨ j = 2 ∨ j = 3 ∨ j = 4 ∨ j = 5 ∨ j = 6 ∨ j = 7
          ∨ j = 8 ∨ j = 9) as Hjs by lia.
  assert (k = 0 ∨ k = 1 ∨ k = 2 ∨ k = 3 ∨ k = 4 ∨ k = 5 ∨ k = 6 ∨ k = 7
          ∨ k = 8 ∨ k = 9) as Hks by lia.
  clear Hj Hk.
  repeat destruct Hjs as [-> | Hjs]; try subst j;
    repeat destruct Hks as [-> | Hks]; try subst k; reflexivity.
Qed.

(** On keys of in-range dates the order of the strings is the order of the
    months. *)
Lemma period_str_le (d1 d2 : Date) :
  month_in_range d1 → month_in_range d2 →
  String.le (period_str d1) (period_str d2) ↔
  date_le (month_start d1) (month_start d2).
Proof.
  intros H1 H2.
  pose proof (month_in_range_year d1 H1) as Hy1.
  pose proof (month_in_range_year d2 H2) as Hy2.
  destruct H1 as (Hm1 & _), H2 as (Hm2 & _).
  unfold String.le, String.leb, period_str. cbn [String.compare].
  rewrite !ascii_compare_digit.
  change (Ascii.compare "-" "-") with Eq. cbv iota.
  unfold date_le. rewrite date_leb_spec. cbn [year month_of day month_start].
  pose proof (decimal_4 (year d1) ltac:(lia)) as Hd1.
  pose proof (decimal_4 (year d2) ltac:(lia)) as Hd2.
  pose proof (decimal_2 (month_of d1) ltac:(lia)) as He1.
  pose proof (decimal_2 (month_of d2) ltac:(lia)) as He2.
  pose proof (Z.mod_pos_bound (year d1 / 1000) 10 eq_refl).
  pose proof (Z.mod_pos_bound (year d1 / 100) 10 eq_refl).
  pose proof (Z.mod_pos_bound (year d1 / 10) 10 eq_refl).
  pose proof (Z.mod_pos_bound (year d1) 10 eq_refl).
  pose proof (Z.mod_pos_bound (year d2 / 1000) 10 eq_refl).
  pose proof (Z.mod_pos_bound (year d2 / 100) 10 eq_refl).
  pose proof (Z.mod_pos_bound (year d2 / 10) 10 eq_refl).
  pose proof (Z.mod_pos_bound (year d2) 10 eq_refl).
  pose proof (Z.mod_pos_bound (month_of d1 / 10) 10 eq_refl).
  pose proof (Z.mod_pos_bound (month_of d1) 10 eq_refl).
  pose proof (Z.mod_pos_bound (month_of d2 / 10) 10 eq_refl).
  pose proof (Z.mod_pos_bound (month_of d2) 10 eq_refl).
  generalize dependent ((year d1 / 1000) mod 10).
  generalize dependent ((year d1 / 100) mod 10).
  generalize dependent ((year d1 / 10) mod 10).
  generalize dependent (year d1 mod 10).
  generalize dependent ((year d2 / 1000) mod 10).
  generalize dependent ((year d2 / 100) mod 10).
  generalize dependent ((year d2 / 10) mod 10).
  generalize dependent (year d2 mod 10).
  generalize dependent ((month_of d1 / 10) mod 10).
  generalize dependent (month_of d1 mod 10).
  generalize dependent ((month_of d2 / 10) mod 10).
  generalize dependent (month_of d2 mod 10).
  intros. 
  repeat match goal with
         | |- context [?a ?= ?b] => destruct (Z.compare_spec a b)
         end; cbn; split; intros; try done; lia.
Qed.

Lemma StronglySorted_fmap_elem {A B} (f : A → B) (R1 : relation A)
    (R2 : relation B) (l : list A) :
  (∀ x y, x ∈ l → y ∈ l → R1 x y → R2 (f x) (f y)) →
  StronglySorted R1 l → StronglySorted R2 (f <$> l).
Proof.
  intros Hf Hl. induction Hl as [|x l Hl IH Hx]; [constructor|].
  rewrite fmap_cons. constructor.
  - apply IH. intros a b Ha Hb. apply Hf; by right.
  - apply Forall_fmap, Forall_forall. intros y Hy. apply Hf.
    + by left.
    + by right.
    + by eapply Forall_forall in Hx.
Qed.

Lemma NoDup_fmap_elem_inj {A B} (f : A → B) (l : list A) x y :
  NoDup (f <$> l) → x ∈ l → y ∈ l → f x = f y → x = y.
Proof.
  induction l as [|a l IH]; [by intros _ ?%elem_of_nil|].
  rewrite fmap_cons. intros [Hnotin Hnd]%NoDup_cons Hx Hy Hxy.
  apply elem_of_cons in Hx as [->|Hx]; apply elem_of_cons in Hy as [->|Hy].
  - done.
  - destruct Hnotin. rewrite Hxy. apply list_elem_of_fmap. by exists y.
  - destruct Hnotin. rewrite <- Hxy. apply list_elem_of_fmap. by exists x.
  - by apply IH.
Qed.

Lemma key_date_period_str (d : Date) :
  month_in_range d → key_date (period_str d) = month_start d.
Proof. intros Hd. unfold key_date. by rewrite (to_datetime_period_str d Hd). Qed.

Lemma monthly_agg_in_calendar_order (v : DataFrame) :
  Forall month_derived v →
  StronglySorted month_le (with_key_date <$> monthly_agg v).
Proof.
  intros Hv. unfold monthly_agg, groupby. rewrite <- !list_fmap_compose.
  apply (StronglySorted_fmap_elem _ String.le).
  - intros k1 k2 Hk1 Hk2 Hle.
    apply (proj1 (elem_of_group_keys _ _)) in Hk1, Hk2.
    destruct (purchase_key_inv v Hv k1 Hk1) as (r1 & _ & _ & -> & Hr1).
    destruct (purchase_key_inv v Hv k2 Hk2) as (r2 & _ & _ & -> & Hr2).
    unfold month_le, compose, with_key_date. cbn [m_month fst].
    rewrite (key_date_period_str _ Hr1), (key_date_period_str _ Hr2).
    exact (proj1 (period_str_le _ _ Hr1 Hr2) Hle).
  - apply StronglySorted_merge_sort; apply _.
Qed.

(** X12: on a view whose rows carry the month key of their date, sorting
    the monthly frame by the converted month changes nothing: the group-by
    has already put the "YYYY-MM" keys in calendar order. *)
Theorem monthly_sort_changes_nothing (v : DataFrame) :
  Forall month_derived v →
  ∃ s, convert_months (monthly_agg v) = Ok s ∧ monthly v = Ok s.
Proof.
  intros Hv. exists (with_key_date <$> monthly_agg v).
  assert (convert_months (monthly_agg v) = Ok (with_key_date <$> monthly_agg v))
    as Hconv.
  { pose proof (monthly_ok v Hv) as Hm. unfold monthly in Hm.
    destruct (convert_months (monthly_agg v)) as [rows|e] eqn:Hc;
      [|discriminate].
    cbn [rbind] in Hm. rewrite convert_months_ok in Hc; [done|].
    apply Forall_forall. intros row Hrow. unfold monthly_agg in Hrow.
    destruct (proj1 (list_elem_of_fmap _ _ _) Hrow) as ([k g] & -> & Hin).
    destruct (proj1 (elem_of_groupby _ _ _ _) Hin) as [Hk _].
    destruct (purchase_key_inv v Hv k Hk) as (r & _ & _ & -> & Hrange).
    exists (month_start (date r)). by apply to_datetime_period_str. }
  split; [exact Hconv|]. unfold monthly. rewrite Hconv. cbn [rbind].
  f_equal. unfold sort_values.
  apply (StronglySorted_unique_strong month_le).
  - intros x1 x2 Hx1 Hx2 H12 H21.
    rewrite merge_sort_Permutation in Hx1.
    apply (NoDup_fmap_elem_inj m_month (with_key_date <$> monthly_agg v));
      [by apply monthly_keys_NoDup|done..|].
    by apply date_le_antisym.
  - apply StronglySorted_merge_sort; apply _.
  - by apply monthly_agg_in_calendar_order.
  - apply merge_sort_Permutation.
Qed.

Lemma monthly_sort_changes_nothing_witness :
  Forall month_derived purchases_two_months ∧
  ∃ s, convert_months (monthly_agg purchases_two_months) = Ok s ∧
       monthly purchases_two_months = Ok s.
Proof.
  split; [exact purchases_two_months_derived|].
  exact (monthly_sort_changes_nothing purchases_two_months
           purchases_two_months_derived).
Defined.

(** X13: for dates whose month starts inside the timestamp range, parsing
    the month key of a date gives the first day of its month; two dates
    have the same key exactly when they fall in the same calendar month; and
    the keys compare as strings the way the months compare in the
    calendar. *)
Theorem month_key_round_trip (d1 d2 : Date) :
  month_in_range d1 → month_in_range d2 →
  to_datetime (period_str d1) = Ok (month_start d1) ∧
  (period_str d1 = period_str d2 ↔ month_start d1 = month_start d2) ∧
  (String.le (period_str d1) (period_str d2) ↔
   date_le (month_start d1) (month_start d2)).
Proof.
  intros H1 H2. split; [by apply to_datetime_period_str|]. split.
  - by apply period_str_eq_iff.
  - by apply period_str_le.
Qed.

Lemma month_key_round_trip_witness :
  month_in_range (mkDate 2023 12 31) ∧ month_in_range (mkDate 2024 1 1) ∧
  to_datetime (period_str (mkDate 2023 12 31))
    = Ok (month_start (mkDate 2023 12 31)) ∧
  (period_str (mkDate 2023 12 31) = period_str (mkDate 2024 1 1)
     ↔ month_start (mkDate 2023 12 31) = month_start (mkDate 2024 1 1)) ∧
  (String.le (period_str (mkDate 2023 12 31)) (period_str (mkDate 2024 1 1))
     ↔ date_le (month_start (mkDate 2023 12 31))
               (month_start (mkDate 2024 1 1))).
Proof.
  assert (month_in_range (mkDate 2023 12 31)) as H1
    by (apply (bool_decide_unpack _); reflexivity).
  assert (month_in_range (mkDate 2024 1 1)) as H2
    by (apply (bool_decide_unpack _); reflexivity).
  split; [exact H1|]. split; [exact H2|].
  exact (month_key_round_trip _ _ H1 H2).
Defined.

(** ** A run that raises nothing *)

(** X14: on a dataset whose rows carry the month key of their date, a run
    with two dates selected shows no sidebar message and raises nothing,
    whatever events and dates are selected: it returns the view, the funnel
    of the view, both rates, the abandonment rate as 1 minus the
    add->purchase rate, an average order value that is a number, and the
    monthly series of the view. *)
Theorem run_returns_every_aggregate (D : DataFrame) (events : list string)
    (lo hi : Date) :
  Forall month_derived D →
  ∃ d, run D events [lo; hi] = ([], Ok d) ∧
       view D events [lo; hi] = Ok (d_view d) ∧
       d_funnel d = funnel (d_view d) ∧
       conv_view_to_add (d_view d) = Ok (d_conv_view_to_add d) ∧
       conv_add_to_purchase (d_view d) = Ok (d_conv_add_to_purchase d) ∧
       d_cart_abandonment_rate d = (1 - d_conv_add_to_purchase d)%Q ∧
       d_avg_order_value d = avg_order_value (d_view d) ∧
       d_avg_order_value d ≠ NaN ∧
       monthly (d_view d) = Ok (d_monthly d).
Proof.
  intros HD.
  destruct (aggregate_total (filter (keeps events lo hi) D))
    as (d & Hd & Hv & Hf & _ & _ & _ & Hc1 & Hc2 & Hcar & Ha & Hm).
  { by apply Forall_view. }
  exists d. unfold run. rewrite view_pair. cbn [rbind]. rewrite Hd, Hv.
  repeat split; try done.
  rewrite Ha, avg_order_value_prices.
  by destruct (where_event _ "purchase").
Qed.

Lemma run_returns_every_aggregate_witness :
  Forall month_derived four_records ∧
  ∃ d, run four_records ["view"; "purchase"]%string
           [mkDate 2024 1 1; mkDate 2024 1 31] = ([], Ok d) ∧
       view four_records ["view"; "purchase"]%string
            [mkDate 2024 1 1; mkDate 2024 1 31] = Ok (d_view d) ∧
       d_funnel d = funnel (d_view d) ∧
       conv_view_to_add (d_view d) = Ok (d_conv_view_to_add d) ∧
       conv_add_to_purchase (d_view d) = Ok (d_conv_add_to_purchase d) ∧
       d_cart_abandonment_rate d = (1 - d_conv_add_to_purchase d)%Q ∧
       d_avg_order_value d = avg_order_value (d_view d) ∧
       d_avg_order_value d ≠ NaN ∧
       monthly (d_view d) = Ok (d_monthly d).
Proof.
  assert (Forall month_derived four_records) as HD
    by (apply (bool_decide_unpack _); reflexivity).
  split; [exact HD|].
  exact (run_returns_every_aggregate four_records _ _ _ HD).
Defined.

(** ** Event ids in a view *)

Lemma StronglySorted_fmap_filter {A B} (f : A → B) (R : relation B)
    (P : A → Prop) `{!∀ x, Decision (P x)} (l : list A) :
  StronglySorted R (f <$> l) → StronglySorted R (f <$> filter P l).
Proof.
  induction l as [|x l IH]; [done|].
  rewrite fmap_cons, filter_cons. intros Hs.
  apply StronglySorted_inv in Hs as [Hl Hx].
  destruct (decide (P x)); [|by apply IH].
  rewrite fmap_cons. constructor; [by apply IH|].
  apply Forall_fmap, Forall_forall. intros y Hy.
  apply list_elem_of_filter in Hy as [_ Hy].
  apply (proj1 (Forall_fmap _ _ _)) in Hx.
  exact (proj1 (Forall_forall _ _) Hx y Hy).
Qed.

(** X15: when the event ids of the dataset go up strictly from row to row,
    as [np.arange] numbers them, so do the event ids of every view: ids
    stay unique and in dataset order after filtering. *)
Theorem view_keeps_event_ids_ascending (D : DataFrame)
    (events : list string) (lo hi : Date) :
  StronglySorted Z.lt (event_id <$> D) →
  ∃ v, view D events [lo; hi] = Ok v ∧
       StronglySorted Z.lt (event_id <$> v) ∧ NoDup (event_id <$> v).
Proof.
  intros HD. eexists. split; [apply view_pair|].
  assert (StronglySorted Z.lt (event_id <$> filter (keeps events lo hi) D))
    as Hs by by apply StronglySorted_fmap_filter.
  split; [exact Hs|].
  clear HD. induction Hs as [|x l Hl IH Hx]; constructor; [|done].
  intros Hin. eapply Forall_forall in Hx; [|done]. lia.
Qed.

Lemma view_keeps_event_ids_ascending_witness :
  StronglySorted Z.lt (event_id <$> four_records) ∧
  ∃ v, view four_records ["view"%string] [mkDate 2024 1 1; mkDate 2024 12 31]
         = Ok v ∧
       StronglySorted Z.lt (event_id <$> v) ∧ NoDup (event_id <$> v).
Proof.
  assert (StronglySorted Z.lt (event_id <$> four_records)) as HD
    by (apply (bool_decide_unpack _); reflexivity).
  split; [exact HD|].
  exact (view_keeps_event_ids_ascending four_records _ _ _ HD).
Defined.

(** ** Shape of the generated dataset *)




Section GeneratorShape.
Variable rng : Type.
Variable seed : Z → rng.
Variable randint : Z → Z → Z → rng → list Z * rng.
Variable choice : ∀ A : Type, list A → option (list Q) → Z → rng → list A * rng.
Variable uniform : Q → Q → Z → rng → list Q * rng.

(** What numpy documents for the three draws: [size] values each;
    [randint(low, high)] in [low, high); [choice] among the population;
    [uniform(low, high)] between the bounds. *)
Hypothesis draw_randint_length : ∀ lo hi n g,
  0 ≤ n → length (randint lo hi n g).1 = Z.to_nat n.
Hypothesis draw_randint_range : ∀ lo hi n g x,
  lo < hi → x ∈ (randint lo hi n g).1 → lo ≤ x < hi.
Hypothesis draw_choice_length : ∀ A (l : list A) p n g,
  0 ≤ n → l ≠ [] → length (choice A l p n g).1 = Z.to_nat n.
Hypothesis draw_choice_elem : ∀ A (l : list A) p n g x,
  x ∈ (choice A l p n g).1 → x ∈ l.
Hypothesis draw_uniform_length : ∀ a b n g,
  0 ≤ n → length (uniform a b n g).1 = Z.to_nat n.
Hypothesis draw_uniform_range : ∀ a b n g x,
  (a <= b)%Q → x ∈ (uniform a b n g).1 → (a <= x <= b)%Q.

End GeneratorShape.




(** ** The cache, run on the counter generator *)


(** ** Narrowing a selection *)

Lemma nunique_mono (xs ys : list Z) : xs ⊆ ys → nunique xs ≤ nunique ys.
Proof.
  intros Hsub. rewrite !nunique_card. apply inj_le, subseteq_size.
  intros x. rewrite !elem_of_list_to_set. apply Hsub.
Qed.

Lemma where_event_narrower (D : DataFrame) events1 events2 lo1 hi1 lo2 hi2 e :
  events2 ⊆ events1 → date_le lo1 lo2 → date_le hi2 hi1 →
  map user_id (where_event (filter (keeps events2 lo2 hi2) D) e) ⊆
  map user_id (where_event (filter (keeps events1 lo1 hi1) D) e).
Proof.
  intros Hev Hlo Hhi u Hu.
  apply list_elem_of_fmap in Hu as (r & -> & Hr).
  apply list_elem_of_filter in Hr as [He Hr].
  apply list_elem_of_filter in Hr as [(Hre & Hrlo & Hrhi) Hr].
  apply list_elem_of_fmap. exists r. split; [done|].
  apply list_elem_of_filter. split; [done|].
  apply list_elem_of_filter. split; [|done].
  split; [by apply Hev|]. split; by etrans.
Qed.

(** X18: narrowing a selection (fewer event names, a later start, an
    earlier end) never raises a unique-user metric and never lengthens the
    view. *)
Theorem narrower_selection_lowers_counts (D : DataFrame)
    (events1 events2 : list string) (lo1 hi1 lo2 hi2 : Date) :
  events2 ⊆ events1 → date_le lo1 lo2 → date_le hi2 hi1 →
  ∃ v1 v2, view D events1 [lo1; hi1] = Ok v1 ∧
           view D events2 [lo2; hi2] = Ok v2 ∧
           (length v2 ≤ length v1)%nat ∧
           unique_views v2 ≤ unique_views v1 ∧
           unique_adds v2 ≤ unique_adds v1 ∧
           unique_purchases v2 ≤ unique_purchases v1.
Proof.
  intros Hev Hlo Hhi.
  exists (filter (keeps events1 lo1 hi1) D), (filter (keeps events2 lo2 hi2) D).
  rewrite !view_pair. split; [done|]. split; [done|]. split.
  - rewrite <- (filter_keeps_narrower D events1 events2 lo1 hi1 lo2 hi2)
      by done.
    apply length_filter.
  - unfold unique_views, unique_adds, unique_purchases.
    repeat split; apply nunique_mono; by apply where_event_narrower.
Qed.

Lemma narrower_selection_lowers_counts_witness :
  ["view"%string] ⊆ funnel_order ∧
  date_le (mkDate 2024 1 1) (mkDate 2024 1 1) ∧
  date_le (mkDate 2024 1 31) (mkDate 2024 12 31) ∧
  ∃ v1 v2,
    view four_records funnel_order [mkDate 2024 1 1; mkDate 2024 12 31] = Ok v1 ∧
    view four_records ["view"%string] [mkDate 2024 1 1; mkDate 2024 1 31]
      = Ok v2 ∧
    (length v2 ≤ length v1)%nat ∧
    unique_views v2 ≤ unique_views v1 ∧
    unique_adds v2 ≤ unique_adds v1 ∧
    unique_purchases v2 ≤ unique_purchases v1.
Proof.
  assert (["view"%string] ⊆ funnel_order) as Hev.
  { intros e He. apply list_elem_of_singleton in He as ->.
    apply (bool_decide_unpack _). reflexivity. }
  assert (date_le (mkDate 2024 1 1) (mkDate 2024 1 1)) as Hlo by reflexivity.
  assert (date_le (mkDate 2024 1 31) (mkDate 2024 12 31)) as Hhi by reflexivity.
  split; [exact Hev|]. split; [exact Hlo|]. split; [exact Hhi|].
  exact (narrower_selection_lowers_counts four_records funnel_order
           ["view"%string] _ _ _ _ Hev Hlo Hhi).
Defined.
